(** * PerfRecord: supervision of a [perf record] subprocess

    A shallow embedding of [src/perfrecord.cpp] (Hotspot).  The class
    [PerfRecord] owns one [QProcess] handle, an output path and the
    user-terminated flag.  Member functions become computations in a small
    state-and-trace monad: the state holds the object, the file system and
    identity services it consults, and the object allocator; the trace
    records, in program order, every Qt signal the object emits and every
    call it makes on a [QProcess]. *)

From Stdlib Require Import ZArith NArith List String Ascii Bool Lia DecimalString.
Import ListNotations.

Local Open Scope string_scope.
Local Open Scope list_scope.

(** ** QString operations used by the source *)

Module QString.

(** [tr]: no translation catalogue is loaded, the source text is returned. *)
Definition tr (s : string) : string := s.

(** [QString::arg]: every occurrence of the place marker [%1] is replaced.
    The templates of the source hold only the marker [%1], never followed by
    a digit. *)
Fixpoint arg (template a : string) : string :=
  match template with
  | String "%" (String "1" rest) => (a ++ arg rest a)%string
  | String c rest => String c (arg rest a)
  | EmptyString => EmptyString
  end.

(** [QString::number] and [arg(int)]: decimal rendering. *)
Definition number (z : Z) : string := NilZero.string_of_int (Z.to_int z).

Definition isEmpty (s : string) : bool :=
  match s with EmptyString => true | String _ _ => false end.

Definition endsWith (s suffix : string) : bool :=
  let n := String.length s in
  let k := String.length suffix in
  (k <=? n)%nat && String.eqb (substring (n - k) k s) suffix.

(** [QStringList::join]. *)
Definition join (sep : string) (l : list string) : string :=
  String.concat sep l.

End QString.
Import QString.

(** ** The environment the supervisor consults *)

(** What a [QFileInfo] reports about one path. *)
Record QFileInfo : Type := mkFileInfo {
  exists_ : bool;
  isDir : bool;
  isFile : bool;
  isWritable : bool;
  isExecutable : bool;
  isReadable : bool;
  size : Z;                       (* qint64 *)
  absoluteFilePath : string
}.

(** A path that names nothing: what [QFileInfo] reports for the empty path. *)
Definition noFile : QFileInfo :=
  mkFileInfo false false false false false false 0 "".

(** File system, search path and user identity at one instant. *)
Record World : Type := mkWorld {
  stat : string -> QFileInfo;          (* file metadata by path *)
  findExecutable : string -> string;   (* QStandardPaths::findExecutable *)
  loginName : string;                  (* KUser().loginName() *)
  groupName : string;                  (* KUserGroup().name() *)
  activeWindow : Z                     (* KWindowSystem::activeWindow() *)
}.

Definition fileInfo (w : World) (path : string) : QFileInfo :=
  if isEmpty path then noFile else stat w path.

(** Library and operating-system behaviour the source relies on but does not
    define. *)
Class Platform : Type := {
  (** [QFileInfo(path).dir().path()] *)
  dirPath : string -> string;
  (** [QString::fromUtf8] *)
  fromUtf8 : string -> string;
  (** What a blocking [QProcess::execute] leaves behind. *)
  execute : World -> string -> list string -> World
}.

(** ** Objects *)

Inductive ProcessChannelMode : Type := SeparateChannels | MergedChannels.
Inductive ExitStatus : Type := NormalExit | CrashExit.
Inductive ProcessError : Type :=
  FailedToStart | Crashed | Timedout | WriteError | ReadError | UnknownError.

(** A [QProcess] object: its identity, its properties, and which of the
    supervisor's three lambdas are connected to its signals. *)
Record QProcess : Type := mkProcess {
  objectId : nat;
  processChannelMode : ProcessChannelMode;
  workingDirectory : string;
  program : string;
  arguments : list string;
  errorString : string;
  finishedConnected : bool;
  errorOccurredConnected : bool;
  readyReadConnected : bool
}.

Definition newProcess (id : nat) : QProcess :=
  mkProcess id SeparateChannels "" "" [] "Unknown error" false false false.

(** The member variables of [PerfRecord]. *)
Record PerfRecord : Type := mkPerfRecord {
  m_perfRecordProcess : option QProcess;
  m_outputPath : string;
  m_userTerminated : bool
}.

(** [PerfRecord::PerfRecord]. *)
Definition PerfRecord_new : PerfRecord := mkPerfRecord None "" false.

(** Signals of [PerfRecord]. *)
Inductive Notification : Type :=
| recordingStarted (perfBinary : string) (args : list string)
| recordingOutput (text : string)
| recordingFinished (fileLocation : string)
| recordingFailed (errorMessage : string).

(** Everything observable from outside the object. *)
Inductive Effect : Type :=
| Emit (n : Notification)
| Kill (id : nat)                                   (* QProcess::kill *)
| DeleteLater (id : nat)                            (* QObject::deleteLater *)
| Terminate (id : nat)                              (* QProcess::terminate *)
| Start (id : nat) (prog : string) (args : list string)   (* QProcess::start *)
| Execute (prog : string) (args : list string).     (* QProcess::execute *)

Record Sys : Type := mkSys {
  world : World;
  self : PerfRecord;
  nextObject : nat          (* identity of the next object [new] returns *)
}.

(** ** The monad *)

Definition M (A : Type) : Type := Sys -> A * Sys * list Effect.

Definition value {A} (r : A * Sys * list Effect) : A := fst (fst r).
Definition after {A} (r : A * Sys * list Effect) : Sys := snd (fst r).
Definition effects {A} (r : A * Sys * list Effect) : list Effect := snd r.

Definition ret {A} (a : A) : M A := fun s => (a, s, []).

Definition bind {A B} (m : M A) (k : A -> M B) : M B :=
  fun s =>
    let '(a, s1, t1) := m s in
    let '(b, s2, t2) := k a s1 in
    (b, s2, t1 ++ t2).

Declare Scope perf_scope.
Delimit Scope perf_scope with perf.
Notation "x <- c ;; k" := (bind c (fun x => k))
  (at level 61, c at next level, right associativity) : perf_scope.
Notation "c ;; k" := (bind c (fun _ => k))
  (at level 61, right associativity) : perf_scope.
Local Open Scope perf_scope.

Definition getSelf : M PerfRecord := fun s => (self s, s, []).
Definition getWorld : M World := fun s => (world s, s, []).
Definition putWorld (w : World) : M unit :=
  fun s => (tt, mkSys w (self s) (nextObject s), []).
Definition modify (f : PerfRecord -> PerfRecord) : M unit :=
  fun s => (tt, mkSys (world s) (f (self s)) (nextObject s), []).
Definition perform (e : Effect) : M unit := fun s => (tt, s, [e]).
Definition emit (n : Notification) : M unit := perform (Emit n).

(** [new QProcess(this)] *)
Definition allocProcess : M QProcess :=
  fun s => (newProcess (nextObject s),
            mkSys (world s) (self s) (S (nextObject s)), []).

Definition set_process (p : option QProcess) (o : PerfRecord) : PerfRecord :=
  mkPerfRecord p (m_outputPath o) (m_userTerminated o).
Definition set_outputPath (path : string) (o : PerfRecord) : PerfRecord :=
  mkPerfRecord (m_perfRecordProcess o) path (m_userTerminated o).
Definition set_userTerminated (b : bool) (o : PerfRecord) : PerfRecord :=
  mkPerfRecord (m_perfRecordProcess o) (m_outputPath o) b.

(** Update of the object [m_perfRecordProcess] points to. *)
Definition onProcess (f : QProcess -> QProcess) : M unit :=
  modify (fun o => set_process (option_map f (m_perfRecordProcess o)) o).

Definition setProcessChannelMode (m : ProcessChannelMode) (p : QProcess) :=
  mkProcess (objectId p) m (workingDirectory p) (program p) (arguments p)
    (errorString p) (finishedConnected p) (errorOccurredConnected p)
    (readyReadConnected p).
Definition setWorkingDirectory (d : string) (p : QProcess) :=
  mkProcess (objectId p) (processChannelMode p) d (program p) (arguments p)
    (errorString p) (finishedConnected p) (errorOccurredConnected p)
    (readyReadConnected p).
Definition setCommand (prog : string) (args : list string) (p : QProcess) :=
  mkProcess (objectId p) (processChannelMode p) (workingDirectory p) prog args
    (errorString p) (finishedConnected p) (errorOccurredConnected p)
    (readyReadConnected p).
Definition setErrorString (e : string) (p : QProcess) :=
  mkProcess (objectId p) (processChannelMode p) (workingDirectory p)
    (program p) (arguments p) e (finishedConnected p)
    (errorOccurredConnected p) (readyReadConnected p).
Definition connectFinished (p : QProcess) :=
  mkProcess (objectId p) (processChannelMode p) (workingDirectory p)
    (program p) (arguments p) (errorString p) true
    (errorOccurredConnected p) (readyReadConnected p).
Definition connectErrorOccurred (p : QProcess) :=
  mkProcess (objectId p) (processChannelMode p) (workingDirectory p)
    (program p) (arguments p) (errorString p) (finishedConnected p) true
    (readyReadConnected p).
Definition connectReadyRead (p : QProcess) :=
  mkProcess (objectId p) (processChannelMode p) (workingDirectory p)
    (program p) (arguments p) (errorString p) (finishedConnected p)
    (errorOccurredConnected p) true.

(** [m_perfRecordProcess->start(prog, args)]: the object remembers the
    command and the child is spawned.  This is [QProcess::start] on a
    program that is named; what is proved about the stored command is
    proved for such programs. *)
Definition startProcess (prog : string) (args : list string) : M unit :=
  o <- getSelf ;;
  match m_perfRecordProcess o with
  | Some p => onProcess (setCommand prog args) ;;
              perform (Start (objectId p) prog args)
  | None => ret tt
  end.

(** ** Constants of <cstdlib> and <csignal> *)

Definition EXIT_SUCCESS : Z := 0.
Definition SIGTERM : Z := 15.

(** ** Member functions of [PerfRecord] *)

Section Supervisor.

Context {P : Platform}.

(** [PerfRecord::currentUsername] *)
Definition currentUsername (w : World) : string := loginName w.

(** The loop of [PerfRecord::sudoUtil] over its candidate list. *)
Fixpoint firstExecutable (w : World) (commands : list string) : string :=
  match commands with
  | [] => ""
  | cmd :: rest =>
      let util := findExecutable w cmd in
      if negb (isEmpty util) then util else firstExecutable w rest
  end.

(** [PerfRecord::sudoUtil] *)
Definition sudoUtil (w : World) : string :=
  firstExecutable w ["kdesu"; "gksu"].

(** [sudoOptions] (static).  It reads the active window of the desktop. *)
Definition sudoOptions (w : World) (sudoBinary : string) : list string :=
  let options := ["-u"; "root"] in
  if endsWith sudoBinary "/kdesu"
  then options ++ ["-t"] ++ ["--attach"] ++ [number (activeWindow w)]
  else options.

(** [QProcess::execute]: runs the command and blocks until it has exited. *)
Definition executeBlocking (prog : string) (args : list string) : M unit :=
  w <- getWorld ;;
  perform (Execute prog args) ;;
  putWorld (execute w prog args).

(** [outputFile.refresh(); return outputFile.isReadable();] *)
Definition refreshedReadable (filePath : string) : M bool :=
  w <- getWorld ;;
  ret (isReadable (fileInfo w filePath)).

(** [PerfRecord::ensureFileReadable] *)
Definition ensureFileReadable (filePath : string) : M bool :=
  w <- getWorld ;;
  let outputFile := fileInfo w filePath in
  let username := currentUsername w in
  if negb (isReadable outputFile) then
    let sudoExe := sudoUtil w in
    if isEmpty sudoExe || isEmpty username then ret false
    else
      let options :=
        sudoOptions w sudoExe
        ++ ["--"; "chown";
            (username ++ ":" ++ groupName w)%string;
            filePath] in
      executeBlocking sudoExe options ;;
      refreshedReadable filePath
  else refreshedReadable filePath.

(** The lambda connected to [QProcess::finished]. *)
Definition onFinished (exitCode : Z) (exitStatus : ExitStatus) : M unit :=
  o <- getSelf ;;
  w <- getWorld ;;
  let outputFileInfo := fileInfo w (m_outputPath o) in
  (if ((exitCode =? EXIT_SUCCESS)%Z
       || ((exitCode =? SIGTERM)%Z && m_userTerminated o)
       || (0 <? size outputFileInfo)%Z)
      && exists_ outputFileInfo
   then
     readable <- ensureFileReadable (m_outputPath o) ;;
     if negb readable
     then emit (recordingFailed (tr "Unable to make data file readable."))
     else emit (recordingFinished (m_outputPath o))
   else
     emit (recordingFailed
             (arg (tr "Failed to record perf data, error code %1.")
                  (number exitCode)))) ;;
  modify (set_userTerminated false).

(** The lambda connected to [QProcess::errorOccurred]. *)
Definition onErrorOccurred (error : ProcessError) : M unit :=
  o <- getSelf ;;
  if negb (m_userTerminated o) then
    match m_perfRecordProcess o with
    | Some p => emit (recordingFailed (errorString p))
    | None => ret tt
    end
  else ret tt.

(** The lambda connected to [QProcess::readyRead]; [bytes] is what
    [readAll] hands over. *)
Definition onReadyRead (bytes : string) : M unit :=
  let output := fromUtf8 bytes in
  emit (recordingOutput output).

(** [PerfRecord::startRecording] *)
Definition startRecording (perfOptions : list string) (outputPath : string)
    (recordAsSudo : bool) (recordOptions : list string)
    (workingDirectory : string) : M unit :=
  (* Reset perf record process to avoid getting signals from old processes *)
  o <- getSelf ;;
  match m_perfRecordProcess o with
  | Some old => perform (Kill (objectId old)) ;;
                perform (DeleteLater (objectId old))
  | None => ret tt
  end ;;
  fresh <- allocProcess ;;
  modify (set_process (Some fresh)) ;;
  onProcess (setProcessChannelMode MergedChannels) ;;
  w <- getWorld ;;
  let folderPath := dirPath outputPath in
  let folderInfo := fileInfo w folderPath in
  if negb (exists_ folderInfo) then
    emit (recordingFailed (arg (tr "Folder '%1' does not exist.") folderPath))
  else if negb (isDir folderInfo) then
    emit (recordingFailed (arg (tr "'%1' is not a folder.") folderPath))
  else if negb (isWritable folderInfo) then
    emit (recordingFailed (arg (tr "Folder '%1' is not writable.") folderPath))
  else
    onProcess connectFinished ;;
    onProcess connectErrorOccurred ;;
    onProcess connectReadyRead ;;
    modify (set_outputPath outputPath) ;;
    let perfBinary := "perf" in
    (if negb (isEmpty workingDirectory)
     then onProcess (setWorkingDirectory workingDirectory)
     else ret tt) ;;
    if recordAsSudo then
      (* launch perf as root *)
      let sudoBinary := sudoUtil w in
      let options := sudoOptions w sudoBinary in
      (* perf and options *)
      let options := options ++ ["--"; perfBinary; "record"; "-o"; outputPath] in
      let options := options ++ perfOptions in
      (* use runuser to launch command as original user *)
      let options :=
        options ++ ["--"; "runuser"; "-u"; currentUsername w; "--"] in
      (* finally the actual client application and arguments *)
      let options := options ++ recordOptions in
      emit (recordingStarted sudoBinary options) ;;
      startProcess sudoBinary options
    else
      let perfCommand := ["record"; "-o"; outputPath] in
      let perfCommand := perfCommand ++ perfOptions in
      let perfCommand := perfCommand ++ recordOptions in
      emit (recordingStarted perfBinary perfCommand) ;;
      startProcess perfBinary perfCommand.

(** [PerfRecord::record], the overload that attaches to running processes.
    It leaves the working directory at its default, the empty string. *)
Definition record_pids (perfOptions : list string) (outputPath : string)
    (recordAsSudo : bool) (pids : list string) : M unit :=
  match pids with
  | [] => emit (recordingFailed (tr "Process does not exist."))
  | _ :: _ =>
      let recordOptions := ["--pid"; join "," pids] in
      startRecording perfOptions outputPath recordAsSudo recordOptions ""
  end.

(** [PerfRecord::record], the overload that launches an executable. *)
Definition record_exe (perfOptions : list string) (outputPath : string)
    (recordAsSudo : bool) (exePath : string) (exeOptions : list string)
    (workingDirectory : string) : M unit :=
  w <- getWorld ;;
  let exeFileInfo := fileInfo w exePath in
  let exeFileInfo :=
    if negb (exists_ exeFileInfo)
    then fileInfo w (findExecutable w exePath)
    else exeFileInfo in
  if negb (exists_ exeFileInfo) then
    emit (recordingFailed (arg (tr "File '%1' does not exist.") exePath))
  else if negb (isFile exeFileInfo) then
    emit (recordingFailed (arg (tr "'%1' is not a file.") exePath))
  else if negb (isExecutable exeFileInfo) then
    emit (recordingFailed (arg (tr "File '%1' is not executable.") exePath))
  else
    let recordOptions := [absoluteFilePath exeFileInfo] in
    let recordOptions := recordOptions ++ exeOptions in
    startRecording perfOptions outputPath recordAsSudo recordOptions
      workingDirectory.

(** [PerfRecord::perfCommand] *)
Definition perfCommand : M string :=
  o <- getSelf ;;
  match m_perfRecordProcess o with
  | Some p => ret ("perf " ++ join " " (arguments p))%string
  | None => ret ""
  end.

(** [PerfRecord::stopRecording] *)
Definition stopRecording : M unit :=
  o <- getSelf ;;
  match m_perfRecordProcess o with
  | Some p =>
      modify (set_userTerminated true) ;;
      perform (Terminate (objectId p))
  | None => ret tt
  end.

(** ** What happens to a supervisor between two calls *)

(** The signals of [QProcess] the supervisor listens to, with what the
    process object holds when they fire. *)
Inductive ProcessSignal : Type :=
| finished (exitCode : Z) (exitStatus : ExitStatus)
| errorOccurred (error : ProcessError) (description : string)
| readyRead (bytes : string).

(** Delivery of a signal of the current process object: [QProcess] stores
    the description of an error before it announces it; a lambda runs only
    if it was connected to this object. *)
Definition deliver (sig : ProcessSignal) : M unit :=
  o <- getSelf ;;
  match m_perfRecordProcess o with
  | None => ret tt
  | Some p =>
      match sig with
      | finished exitCode exitStatus =>
          if finishedConnected p then onFinished exitCode exitStatus
          else ret tt
      | errorOccurred error description =>
          onProcess (setErrorString description) ;;
          if errorOccurredConnected p then onErrorOccurred error
          else ret tt
      | readyRead bytes =>
          if readyReadConnected p then onReadyRead bytes else ret tt
      end
  end.

(** One thing that happens while a recording runs: the process signals,
    the user asks to stop, or the file system changes under the
    supervisor (perf writes its data file). *)
Inductive Occurrence : Type :=
| Signal (sig : ProcessSignal)
| Stop
| FsUpdate (w : World).

Definition occur (x : Occurrence) : M unit :=
  match x with
  | Signal sig => deliver sig
  | Stop => stopRecording
  | FsUpdate w => putWorld w
  end.

Fixpoint occurAll (xs : list Occurrence) : M unit :=
  match xs with
  | [] => ret tt
  | x :: rest => occur x ;; occurAll rest
  end.

(** ** Reading a trace *)

Definition notificationOf (e : Effect) : list Notification :=
  match e with Emit n => [n] | _ => [] end.

(** The notifications of a trace, in order. *)
Definition emitted (t : list Effect) : list Notification :=
  flat_map notificationOf t.

Definition isSpawn (e : Effect) : bool :=
  match e with Start _ _ _ | Execute _ _ => true | _ => false end.

(** The subprocesses a trace spawns. *)
Definition spawned (t : list Effect) : list Effect := filter isSpawn t.

Definition isTerminal (n : Notification) : bool :=
  match n with
  | recordingFinished _ | recordingFailed _ => true
  | _ => false
  end.

(** The finished and failed notifications of a trace. *)
Definition terminal (t : list Effect) : list Notification :=
  filter isTerminal (emitted t).

End Supervisor.

(** ** A concrete desktop, for running the model *)

Module Desktop.

(** Parent directory of a path: the text before its last slash. *)
Fixpoint beforeLastSlash (s : string) : option string :=
  match s with
  | EmptyString => None
  | String c rest =>
      match beforeLastSlash rest with
      | Some d => Some (String c d)
      | None => if Ascii.eqb c "/" then Some EmptyString else None
      end
  end.

Definition parentDir (path : string) : string :=
  match beforeLastSlash path with
  | None => "."
  | Some EmptyString => "/"
  | Some d => d
  end.

Definition directory (path : string) : QFileInfo :=
  mkFileInfo true true false true true true 4096 path.
Definition binary (path : string) : QFileInfo :=
  mkFileInfo true false true false true true 18000 path.
(** A data file written by root: there, but not readable by the user. *)
Definition rootFile (bytes : Z) (path : string) : QFileInfo :=
  mkFileInfo true false true false false false bytes path.
Definition userFile (bytes : Z) (path : string) : QFileInfo :=
  mkFileInfo true false true true false true bytes path.

Definition files (dataFile : option QFileInfo) (path : string) : QFileInfo :=
  if String.eqb path "/tmp" then directory path
  else if String.eqb path "/usr/bin/kdesu" then binary path
  else if String.eqb path "/usr/bin/sleep" then binary path
  else if String.eqb path "/etc/passwd" then userFile 1200 path
  else if String.eqb path "/tmp/perf.data" then
    match dataFile with Some f => f | None => noFile end
  else noFile.

Definition searchPath (name : string) : string :=
  if String.eqb name "kdesu" then "/usr/bin/kdesu"
  else if String.eqb name "sleep" then "/usr/bin/sleep"
  else "".

(** The desktop with a given state of [/tmp/perf.data]. *)
Definition desktop (dataFile : option QFileInfo) : World :=
  mkWorld (files dataFile) searchPath "alice" "users" 4242.

(** The same desktop with no sudo helper installed. *)
Definition bare (dataFile : option QFileInfo) : World :=
  mkWorld (files dataFile) (fun _ => "") "alice" "users" 4242.

(** The only command the supervisor executes synchronously is
    [chown user:group file] under the sudo helper; it hands the file, the
    last argument, to the user. *)
Definition chowned (w : World) (prog : string) (args : list string) : World :=
  let target := last args "" in
  mkWorld
    (fun path =>
       let f := stat w path in
       if String.eqb path target && exists_ f
       then mkFileInfo true (isDir f) (isFile f) true (isExecutable f) true
              (size f) (absoluteFilePath f)
       else f)
    (findExecutable w) (loginName w) (groupName w) (activeWindow w).

#[export] Instance platform : Platform :=
  {| dirPath := parentDir; fromUtf8 := fun bytes => bytes; execute := chowned |}.

(** A fresh supervisor on a desktop. *)
Definition boot (w : World) : Sys := mkSys w PerfRecord_new 0.

(** A non-elevated [perf record sleep 1] writing to [/tmp/perf.data]. *)
Definition recordSleep : M unit :=
  record_exe ["--call-graph"; "dwarf"] "/tmp/perf.data" false "sleep" ["1"] "".

Definition dataPath : string := "/tmp/perf.data".

(** The supervisor once [recordSleep] has started perf. *)
Definition started (dataFile : option QFileInfo) : Sys :=
  after (recordSleep (boot (desktop dataFile))).

(** perf dies of a segmentation fault: [QProcess] reports the crash and
    then the exit. *)
Definition crash : list Occurrence :=
  [Signal (errorOccurred Crashed "Process crashed");
   Signal (finished 11 CrashExit)].

(** The user stops a recording; perf ends on the signal. *)
Definition stopped : list Occurrence :=
  [Signal (readyRead "[ perf record: Woken up 1 times to write data ]");
   Stop;
   Signal (errorOccurred Crashed "Process crashed")].

(** A start request whose output folder does not exist. *)
Definition recordNowhere : M unit :=
  record_exe [] "/nonexistent/perf.data" false "sleep" ["1"] "".

End Desktop.

(** ** Vocabulary of the specification *)

Section Vocabulary.

Context {P : Platform}.

(** What a start request records: running processes, or a program to
    launch. *)
Inductive Target : Type :=
| Processes (pids : list string)
| Program (exePath : string) (exeOptions : list string)
    (workingDirectory : string).

(** A start request goes to the overload of [record] for its target. *)
Definition record (perfOptions : list string) (outputPath : string)
    (recordAsSudo : bool) (t : Target) : M unit :=
  match t with
  | Processes pids => record_pids perfOptions outputPath recordAsSudo pids
  | Program exePath exeOptions workingDirectory =>
      record_exe perfOptions outputPath recordAsSudo exePath exeOptions
        workingDirectory
  end.

(** The file an executable path stands for: the literal path if something
    is there, else what the search path finds under that name. *)
Definition lookup (w : World) (exePath : string) : QFileInfo :=
  if exists_ (fileInfo w exePath) then fileInfo w exePath
  else fileInfo w (findExecutable w exePath).

(** The target of a start request is in order: some process is named, or
    the executable is there, a regular file, and executable. *)
Definition targetUsable (w : World) (t : Target) : bool :=
  match t with
  | Processes pids => negb (Nat.eqb (List.length pids) 0)
  | Program exePath _ _ =>
      let exe := lookup w exePath in
      exists_ exe && isFile exe && isExecutable exe
  end.

(** The folder of the output file is there, a directory, and writable. *)
Definition folderUsable (w : World) (outputPath : string) : bool :=
  let folder := fileInfo w (dirPath outputPath) in
  exists_ folder && isDir folder && isWritable folder.

(** What perf is asked to record, and where the target is to run. *)
Definition targetCommand (w : World) (t : Target) : list string :=
  match t with
  | Processes pids => ["--pid"; join "," pids]
  | Program exePath exeOptions _ =>
      absoluteFilePath (lookup w exePath) :: exeOptions
  end.

Definition targetDirectory (t : Target) : string :=
  match t with
  | Processes _ => ""
  | Program _ _ workingDirectory => workingDirectory
  end.

(** The grounds on which a target is invalid, each with the reason shown
    to the user.  The grounds are told apart: a file that is not regular is
    one that exists, and one that is not executable is a regular file. *)
Inductive BadTarget (w : World) : Target -> string -> Prop :=
| NoProcess :
    BadTarget w (Processes []) "Process does not exist."
| ExeMissing exePath opts wd :
    exists_ (lookup w exePath) = false ->
    BadTarget w (Program exePath opts wd)
      ("File '" ++ exePath ++ "' does not exist.")
| ExeNotFile exePath opts wd :
    exists_ (lookup w exePath) = true ->
    isFile (lookup w exePath) = false ->
    BadTarget w (Program exePath opts wd)
      ("'" ++ exePath ++ "' is not a file.")
| ExeNotExecutable exePath opts wd :
    exists_ (lookup w exePath) = true ->
    isFile (lookup w exePath) = true ->
    isExecutable (lookup w exePath) = false ->
    BadTarget w (Program exePath opts wd)
      ("File '" ++ exePath ++ "' is not executable.").

(** The grounds on which an output folder is invalid, with their
    reasons: a folder that is no directory is one that exists, and one that
    is not writable is a directory. *)
Inductive BadFolder (w : World) (outputPath : string) : string -> Prop :=
| FolderMissing :
    exists_ (fileInfo w (dirPath outputPath)) = false ->
    BadFolder w outputPath
      ("Folder '" ++ dirPath outputPath ++ "' does not exist.")
| FolderNotDir :
    exists_ (fileInfo w (dirPath outputPath)) = true ->
    isDir (fileInfo w (dirPath outputPath)) = false ->
    BadFolder w outputPath
      ("'" ++ dirPath outputPath ++ "' is not a folder.")
| FolderNotWritable :
    exists_ (fileInfo w (dirPath outputPath)) = true ->
    isDir (fileInfo w (dirPath outputPath)) = true ->
    isWritable (fileInfo w (dirPath outputPath)) = false ->
    BadFolder w outputPath
      ("Folder '" ++ dirPath outputPath ++ "' is not writable.").

(** The reason that corresponds to what is wrong with a request: that of
    its target, and that of its folder only if the target is in order. *)
Definition Refused (w : World) (outputPath : string) (t : Target)
    (reason : string) : Prop :=
  BadTarget w t reason
  \/ (targetUsable w t = true /\ BadFolder w outputPath reason).

(** The command line of an elevated recording, as the specification
    spells it. *)
Definition helperFlags (w : World) (helper : string) : list string :=
  ["-u"; "root"]
  ++ (if endsWith helper "/kdesu"
      then ["-t"; "--attach"; number (activeWindow w)] else []).

Definition elevatedArguments (w : World) (helper outputPath : string)
    (perfOptions targetCommand : list string) : list string :=
  helperFlags w helper
  ++ ["--"] ++ ["perf"; "record"; "-o"; outputPath] ++ perfOptions
  ++ ["--"] ++ ["runuser"; "-u"; loginName w; "--"]
  ++ targetCommand.

(** The current process object listens with all three lambdas: a recording
    is under way. *)
Definition recording (s : Sys) : Prop :=
  exists p, m_perfRecordProcess (self s) = Some p
            /\ finishedConnected p = true
            /\ errorOccurredConnected p = true
            /\ readyReadConnected p = true.

(** Exit signals among some occurrences. *)
Fixpoint exits (xs : list Occurrence) : nat :=
  match xs with
  | [] => 0
  | Signal (finished _ _) :: rest => S (exits rest)
  | _ :: rest => exits rest
  end.

(** Error signals among some occurrences that arrive while the
    user-terminated flag is down; [flag] is its value at the start.  A stop
    request raises the flag and an exit lowers it. *)
Fixpoint reportedErrors (flag : bool) (xs : list Occurrence) : nat :=
  match xs with
  | [] => 0
  | Signal (errorOccurred _ _) :: rest =>
      (if flag then 0 else 1) + reportedErrors flag rest
  | Signal (finished _ _) :: rest => reportedErrors false rest
  | Stop :: rest => reportedErrors true rest
  | _ :: rest => reportedErrors flag rest
  end.

Definition isExit (x : Occurrence) : bool :=
  match x with Signal (finished _ _) => true | _ => false end.

(** The output notifications some occurrences call for. *)
Definition outputOf (x : Occurrence) : list Notification :=
  match x with
  | Signal (readyRead bytes) => [recordingOutput (fromUtf8 bytes)]
  | _ => []
  end.

(** The test of the exit lambda. *)
Definition exitAccepted (s : Sys) (exitCode : Z) : bool :=
  let file := fileInfo (world s) (m_outputPath (self s)) in
  ((exitCode =? EXIT_SUCCESS)%Z
   || ((exitCode =? SIGTERM)%Z && m_userTerminated (self s))
   || (0 <? size file)%Z)
  && exists_ file.

(** What [startRecording] does to the process object it finds. *)
Definition resetOf (o : PerfRecord) : list Effect :=
  match m_perfRecordProcess o with
  | Some old => [Kill (objectId old); DeleteLater (objectId old)]
  | None => []
  end.

End Vocabulary.

(** ** The rest of the class, and whole histories *)

Section Lifecycle.

Context {P : Platform}.

(** [PerfRecord::sendInput].  [None] is the failed [Q_ASSERT]; otherwise the
    bytes are written to the current process object, whose identity is
    returned with them. *)
Definition sendInput (input : string) (s : Sys)
  : option (Sys * (nat * string)) :=
  match m_perfRecordProcess (self s) with
  | None => None
  | Some p => Some (s, (objectId p, input))
  end.

(** One step in the life of a supervisor: a call of [record], or something
    that happens to it. *)
Inductive Action : Type :=
| Request (perfOptions : list string) (outputPath : string)
    (recordAsSudo : bool) (t : Target)
| Happens (x : Occurrence).

Definition act (a : Action) : M unit :=
  match a with
  | Request perfOptions outputPath recordAsSudo t =>
      record perfOptions outputPath recordAsSudo t
  | Happens x => occur x
  end.

Fixpoint actAll (h : list Action) : M unit :=
  match h with
  | [] => ret tt
  | a :: rest => act a ;; actAll rest
  end.

(** The commands announced by started notifications, and the commands
    handed to [QProcess::start]. *)
Definition announcedOf (e : Effect) : list (string * list string) :=
  match e with
  | Emit (recordingStarted prog args) => [(prog, args)]
  | _ => []
  end.

Definition launchedOf (e : Effect) : list (string * list string) :=
  match e with
  | Start _ prog args => [(prog, args)]
  | _ => []
  end.

(** The process objects a trace starts. *)
Definition startIdOf (e : Effect) : list nat :=
  match e with Start id _ _ => [id] | _ => [] end.

Definition startIds (t : list Effect) : list nat := flat_map startIdOf t.

(** Reading a trace with an eye on the one process that was started and
    has not been sent [kill] since: [start] is in order only when there is
    no such process.  The result is the process left at the end, or [None]
    when a [start] came too early. *)
Fixpoint oneAtATime (running : option nat) (t : list Effect)
  : option (option nat) :=
  match t with
  | [] => Some running
  | Start id _ _ :: rest =>
      match running with
      | None => oneAtATime (Some id) rest
      | Some _ => None
      end
  | Kill id :: rest =>
      match running with
      | Some r => if Nat.eqb r id then oneAtATime None rest
                  else oneAtATime running rest
      | None => oneAtATime None rest
      end
  | _ :: rest => oneAtATime running rest
  end.

Definition isOutput (n : Notification) : bool :=
  match n with recordingOutput _ => true | _ => false end.

Definition isStop (x : Occurrence) : bool :=
  match x with Stop => true | _ => false end.

(** The current process object was created by a start request that was
    then refused: none of the lambdas is connected to it. *)
Definition idle (s : Sys) : Prop :=
  exists p, m_perfRecordProcess (self s) = Some p
            /\ finishedConnected p = false
            /\ errorOccurredConnected p = false
            /\ readyReadConnected p = false.

(** What holds of the process object of a supervisor at any time. *)
Definition tidy (s : Sys) : Prop :=
  match m_perfRecordProcess (self s) with
  | None => True
  | Some p =>
      processChannelMode p = MergedChannels
      /\ objectId p < nextObject s
      /\ errorOccurredConnected p = finishedConnected p
      /\ readyReadConnected p = finishedConnected p
      /\ (finishedConnected p = false -> program p = "" /\ arguments p = [])
  end.

(** Effects that neither start nor kill a process nor announce a start. *)
Definition calm (e : Effect) : bool :=
  match e with
  | Start _ _ _ | Kill _ | Emit (recordingStarted _ _) => false
  | _ => true
  end.

(** The process read as running in a trace is the one the supervisor
    holds. *)
Definition held (running : option nat) (s : Sys) : Prop :=
  match running with
  | None => True
  | Some id =>
      exists p, m_perfRecordProcess (self s) = Some p /\ objectId p = id
  end.

End Lifecycle.

(** Further scenes on the desktop. *)
Module Scenes.

Import Desktop.

(** perf is killed by a signal after it has written part of its data. *)
Definition partial : option QFileInfo := Some (userFile 52000 dataPath).

(** A day at the desk: a refused request, a recording that is stopped, and
    a second recording that crashes. *)
Definition day : list Action :=
  [Request [] "/nonexistent/perf.data" false (Program "sleep" ["1"] "");
   Request ["-g"] dataPath false (Program "sleep" ["1"] "");
   Happens (Signal (readyRead "perf: started"));
   Happens Stop;
   Happens (Signal (finished 15 NormalExit));
   Request [] dataPath true (Processes ["17"; "23"]);
   Happens (Signal (errorOccurred Crashed "Process crashed"));
   Happens (Signal (finished 11 CrashExit))].

(** Output between a stop request and a crash. *)
Definition chatter : list Occurrence :=
  [Signal (readyRead "one");
   Stop;
   Signal (errorOccurred Crashed "Process crashed");
   Signal (readyRead "two");
   Signal (finished 15 CrashExit);
   Signal (readyRead "three")].

End Scenes.

(** ** Properties *)

Section Properties.

Context {P : Platform}.

(** *** Shape of the monad *)

Lemma effects_bind {A B} (m : M A) (k : A -> M B) (s : Sys) :
  effects (bind m k s) = effects (m s) ++ effects (k (value (m s)) (after (m s))).
Proof.
  unfold bind. destruct (m s) as [[a s1] t1]. cbn.
  destruct (k a s1) as [[b s2] t2]. reflexivity.
Qed.

Lemma after_bind {A B} (m : M A) (k : A -> M B) (s : Sys) :
  after (bind m k s) = after (k (value (m s)) (after (m s))).
Proof.
  unfold bind. destruct (m s) as [[a s1] t1]. cbn.
  destruct (k a s1) as [[b s2] t2]. reflexivity.
Qed.

Lemma isEmpty_true (s : string) : isEmpty s = true <-> s = "".
Proof. destruct s; simpl; split; congruence. Qed.

(** *** stopRecording *)

Lemma stopRecording_run (s : Sys) (p : QProcess) :
  m_perfRecordProcess (self s) = Some p ->
  stopRecording s
  = (tt, mkSys (world s) (set_userTerminated true (self s)) (nextObject s),
     [Terminate (objectId p)]).
Proof.
  intros Hp. unfold stopRecording, bind at 1. cbn [getSelf value after effects fst snd].
  rewrite Hp. reflexivity.
Qed.


(** *** ensureFileReadable *)

Lemma ensureFileReadable_run (s : Sys) (filePath : string) :
  let w := world s in
  let helper := sudoUtil w in
  let user := currentUsername w in
  let chown :=
    sudoOptions w helper
    ++ ["--"; "chown"; (user ++ ":" ++ groupName w)%string; filePath] in
  let w' := execute w helper chown in
  ensureFileReadable filePath s =
    if isReadable (fileInfo w filePath) then (true, s, [])
    else if isEmpty helper || isEmpty user then (false, s, [])
    else (isReadable (fileInfo w' filePath),
          mkSys w' (self s) (nextObject s),
          [Execute helper chown]).
Proof.
  intros w helper user chown w'.
  unfold ensureFileReadable, bind, getWorld; cbn -[sudoUtil sudoOptions].
  fold w. fold helper.
  destruct (isReadable (fileInfo w filePath)) eqn:Hr; cbn -[sudoUtil sudoOptions].
  - unfold w in Hr. rewrite Hr. reflexivity.
  - fold user.
    destruct (isEmpty helper || isEmpty user); reflexivity.
Qed.

(** C8. On a readable file [ensureFileReadable] answers true and runs
    nothing.  On an unreadable one it answers false, again running nothing,
    when no sudo helper is found or the user name is empty.  Otherwise it
    executes [helper <flags> -- chown user:group file], waits for it, and
    answers with the readability of the file as it is afterwards. *)
Theorem ensureFileReadable_cases (s : Sys) (filePath : string) :
  let w := world s in
  let helper := sudoUtil w in
  let user := currentUsername w in
  let chown :=
    sudoOptions w helper
    ++ ["--"; "chown"; (user ++ ":" ++ groupName w)%string; filePath] in
  let w' := execute w helper chown in
  (isReadable (fileInfo w filePath) = true ->
   ensureFileReadable filePath s = (true, s, []))
  /\ (isReadable (fileInfo w filePath) = false ->
      helper = "" \/ user = "" ->
      ensureFileReadable filePath s = (false, s, []))
  /\ (isReadable (fileInfo w filePath) = false ->
      helper <> "" -> user <> "" ->
      ensureFileReadable filePath s
      = (isReadable (fileInfo w' filePath),
         mkSys w' (self s) (nextObject s),
         [Execute helper chown])).
Proof.
  intros w helper user chown w'.
  pose proof (ensureFileReadable_run s filePath) as Hrun.
  cbv zeta in Hrun. fold w helper user chown w' in Hrun.
  split; [ | split ].
  - intros Hr. rewrite Hrun, Hr. reflexivity.
  - intros Hr Hmissing. rewrite Hrun, Hr.
    replace (isEmpty helper || isEmpty user) with true; [ reflexivity | ].
    symmetry. apply orb_true_iff.
    destruct Hmissing as [H | H]; [ left | right ];
      apply isEmpty_true; exact H.
  - intros Hr Hhelper Huser. rewrite Hrun, Hr.
    replace (isEmpty helper || isEmpty user) with false; [ reflexivity | ].
    symmetry. apply orb_false_iff.
    split; apply not_true_is_false; intros H; apply isEmpty_true in H;
      contradiction.
Qed.

(** The helper run changes neither the object nor the allocator, and it
    notifies nobody. *)
Lemma ensureFileReadable_frame (s : Sys) (filePath : string) :
  self (after (ensureFileReadable filePath s)) = self s
  /\ nextObject (after (ensureFileReadable filePath s)) = nextObject s
  /\ emitted (effects (ensureFileReadable filePath s)) = [].
Proof.
  rewrite ensureFileReadable_run.
  destruct (isReadable (fileInfo (world s) filePath)).
  - repeat split.
  - destruct (isEmpty (sudoUtil (world s)) || isEmpty (currentUsername (world s)));
      repeat split.
Qed.

(** *** The exit lambda *)

Lemma onFinished_run (s : Sys) (exitCode : Z) (exitStatus : ExitStatus) :
  let path := m_outputPath (self s) in
  let fix_ := ensureFileReadable path s in
  effects (onFinished exitCode exitStatus s)
  = (if exitAccepted s exitCode
     then effects fix_
          ++ [Emit (if value fix_ then recordingFinished path
                    else recordingFailed "Unable to make data file readable.")]
     else [Emit (recordingFailed
                   ("Failed to record perf data, error code "
                    ++ number exitCode ++ "."))])
  /\ self (after (onFinished exitCode exitStatus s))
     = set_userTerminated false (self s).
Proof.
  intros path fix_.
  unfold onFinished, exitAccepted.
  rewrite effects_bind, after_bind. cbn [getSelf value after effects fst snd app].
  rewrite effects_bind, after_bind. cbn [getWorld value after effects fst snd app].
  rewrite effects_bind, after_bind.
  fold path.
  destruct (((exitCode =? EXIT_SUCCESS)%Z
             || (exitCode =? SIGTERM)%Z && m_userTerminated (self s)
             || (0 <? size (fileInfo (world s) path))%Z)
            && exists_ (fileInfo (world s) path)).
  - rewrite effects_bind, after_bind. fold fix_.
    destruct (ensureFileReadable_frame s path) as (Hself & _ & _).
    fold fix_ in Hself.
    clearbody fix_. destruct fix_ as [[v s1] t]. cbn in Hself |- *.
    rewrite app_nil_r. destruct v; cbn; rewrite Hself; split; reflexivity.
  - cbn. split; reflexivity.
Qed.

Lemma emitted_app (t1 t2 : list Effect) :
  emitted (t1 ++ t2) = emitted t1 ++ emitted t2.
Proof. apply flat_map_app. Qed.

Lemma terminal_app (t1 t2 : list Effect) :
  terminal (t1 ++ t2) = terminal t1 ++ terminal t2.
Proof. unfold terminal. rewrite emitted_app. apply filter_app. Qed.

(** Whatever the exit code, the exit lambda sends one notification, a
    finished or a failed one. *)
Lemma onFinished_one_terminal (s : Sys) (exitCode : Z) (st : ExitStatus) :
  exists n, emitted (effects (onFinished exitCode st s)) = [n]
            /\ isTerminal n = true.
Proof.
  destruct (onFinished_run s exitCode st) as [He _]. rewrite He.
  destruct (exitAccepted s exitCode).
  - rewrite emitted_app.
    destruct (ensureFileReadable_frame s (m_outputPath (self s))) as (_ & _ & Hq).
    rewrite Hq.
    destruct (value (ensureFileReadable (m_outputPath (self s)) s));
      eexists; split; reflexivity.
  - eexists; split; reflexivity.
Qed.

(** *** Delivery of process signals *)

Lemma deliver_finished (s : Sys) (p : QProcess) (c : Z) (st : ExitStatus) :
  m_perfRecordProcess (self s) = Some p ->
  finishedConnected p = true ->
  deliver (finished c st) s = onFinished c st s.
Proof.
  intros Hp Hc. unfold deliver, bind at 1. cbn [getSelf value after effects fst snd].
  rewrite Hp, Hc. cbn [app].
  destruct (onFinished c st s) as [[v s1] t]. reflexivity.
Qed.

Lemma deliver_errorOccurred (s : Sys) (p : QProcess) (e : ProcessError)
    (d : string) :
  m_perfRecordProcess (self s) = Some p ->
  errorOccurredConnected p = true ->
  deliver (errorOccurred e d) s
  = (tt,
     mkSys (world s) (set_process (Some (setErrorString d p)) (self s))
       (nextObject s),
     if m_userTerminated (self s) then [] else [Emit (recordingFailed d)]).
Proof.
  intros Hp Hc. unfold deliver, bind at 1. cbn [getSelf value after effects fst snd].
  rewrite Hp, Hc. cbn. rewrite Hp. cbn.
  destruct (m_userTerminated (self s)); reflexivity.
Qed.

Lemma deliver_readyRead (s : Sys) (p : QProcess) (bytes : string) :
  m_perfRecordProcess (self s) = Some p ->
  readyReadConnected p = true ->
  deliver (readyRead bytes) s
  = (tt, s, [Emit (recordingOutput (fromUtf8 bytes))]).
Proof.
  intros Hp Hc. unfold deliver, bind at 1. cbn [getSelf value after effects fst snd].
  rewrite Hp, Hc. reflexivity.
Qed.

(** One occurrence during a recording: the recording stays under way, the
    flag moves as the occurrence says, and the notifications are those of
    the lambda it runs. *)
Lemma occur_step (s : Sys) (x : Occurrence) :
  recording s ->
  recording (after (occur x s))
  /\ m_userTerminated (self (after (occur x s)))
     = match x with
       | Signal (finished _ _) => false
       | Stop => true
       | _ => m_userTerminated (self s)
       end
  /\ emitted (effects (occur x s))
     = match x with
       | Signal (finished c st) => emitted (effects (onFinished c st s))
       | Signal (errorOccurred _ d) =>
           if m_userTerminated (self s) then [] else [recordingFailed d]
       | Signal (readyRead bytes) => [recordingOutput (fromUtf8 bytes)]
       | _ => []
       end.
Proof.
  intros (p & Hp & Hf & He & Hr).
  destruct x as [[c st | e d | bytes] | | w]; cbn [occur].
  - rewrite (deliver_finished s p c st Hp Hf).
    destruct (onFinished_run s c st) as [_ Hs].
    unfold recording. rewrite Hs. split; [ | split; reflexivity ].
    exists p. cbn. auto.
  - rewrite (deliver_errorOccurred s p e d Hp He).
    split; [ | split ].
    + exists (setErrorString d p). cbn. auto.
    + reflexivity.
    + cbn. destruct (m_userTerminated (self s)); reflexivity.
  - rewrite (deliver_readyRead s p bytes Hp Hr).
    split; [ | split; reflexivity ]. exists p. auto.
  - rewrite (stopRecording_run s p Hp).
    split; [ | split; reflexivity ]. exists p. cbn. auto.
  - split; [ | split; reflexivity ]. exists p. cbn. auto.
Qed.

(** *** startRecording *)

Lemma startRecording_run (s : Sys) (perfOptions : list string)
    (outputPath : string) (recordAsSudo : bool) (recordOptions : list string)
    (wd : string) :
  let w := world s in
  let o := self s in
  let id := nextObject s in
  let folderPath := dirPath outputPath in
  let folder := fileInfo w folderPath in
  let idle := setProcessChannelMode MergedChannels (newProcess id) in
  let refuse := fun reason : string =>
    (tt, mkSys w (set_process (Some idle) o) (S id),
     resetOf o ++ [Emit (recordingFailed reason)]) in
  let prog := if recordAsSudo then sudoUtil w else "perf" in
  let args :=
    if recordAsSudo
    then (((sudoOptions w (sudoUtil w)
            ++ ["--"; "perf"; "record"; "-o"; outputPath])
           ++ perfOptions)
          ++ ["--"; "runuser"; "-u"; currentUsername w; "--"])
         ++ recordOptions
    else (["record"; "-o"; outputPath] ++ perfOptions) ++ recordOptions in
  startRecording perfOptions outputPath recordAsSudo recordOptions wd s
  = if negb (exists_ folder)
    then refuse ("Folder '" ++ folderPath ++ "' does not exist.")%string
    else if negb (isDir folder)
    then refuse ("'" ++ folderPath ++ "' is not a folder.")%string
    else if negb (isWritable folder)
    then refuse ("Folder '" ++ folderPath ++ "' is not writable.")%string
    else (tt,
          mkSys w
            (mkPerfRecord
               (Some (mkProcess id MergedChannels wd prog args
                        "Unknown error" true true true))
               outputPath (m_userTerminated o))
            (S id),
          resetOf o
          ++ [Emit (recordingStarted prog args); Start id prog args]).
Proof.
  intros w o id folderPath folder idle refuse prog args.
  unfold refuse, resetOf, prog, args, idle, folder, folderPath, id, o, w.
  destruct (m_perfRecordProcess (self s)) as [old|] eqn:Hold;
    (destruct (exists_ (fileInfo (world s) (dirPath outputPath))) eqn:E1;
     [ destruct (isDir (fileInfo (world s) (dirPath outputPath))) eqn:E2;
       [ destruct (isWritable (fileInfo (world s) (dirPath outputPath))) eqn:E3
       | ]
     | ]);
    unfold startRecording;
    repeat (progress (cbn -[sudoUtil sudoOptions]; rewrite ?Hold, ?E1, ?E2, ?E3));
    try reflexivity;
    destruct recordAsSudo, wd; reflexivity.
Qed.

Lemma emitted_resetOf (o : PerfRecord) : emitted (resetOf o) = [].
Proof. unfold resetOf. destruct (m_perfRecordProcess o); reflexivity. Qed.

Lemma spawned_resetOf (o : PerfRecord) : spawned (resetOf o) = [].
Proof. unfold resetOf. destruct (m_perfRecordProcess o); reflexivity. Qed.

Lemma spawned_app (t1 t2 : list Effect) :
  spawned (t1 ++ t2) = spawned t1 ++ spawned t2.
Proof. apply filter_app. Qed.

(** A start with an unusable folder: the reset, one failure notification
    with a reason that fits, and an idle process object. *)
Lemma startRecording_bad_folder (s : Sys) (perfOptions : list string)
    (outputPath : string) (recordAsSudo : bool) (recordOptions : list string)
    (wd : string) :
  folderUsable (world s) outputPath = false ->
  exists reason,
    BadFolder (world s) outputPath reason
    /\ startRecording perfOptions outputPath recordAsSudo recordOptions wd s
       = (tt,
          mkSys (world s)
            (set_process
               (Some (setProcessChannelMode MergedChannels
                        (newProcess (nextObject s))))
               (self s))
            (S (nextObject s)),
          resetOf (self s) ++ [Emit (recordingFailed reason)]).
Proof.
  unfold folderUsable. intros H.
  rewrite startRecording_run.
  destruct (exists_ (fileInfo (world s) (dirPath outputPath))) eqn:E1; cbn [negb].
  2:{ eexists. split; [ apply FolderMissing; exact E1 | reflexivity ]. }
  destruct (isDir (fileInfo (world s) (dirPath outputPath))) eqn:E2; cbn [negb].
  2:{ eexists. split; [ apply FolderNotDir; [ exact E1 | exact E2 ] | reflexivity ]. }
  destruct (isWritable (fileInfo (world s) (dirPath outputPath))) eqn:E3; cbn [negb].
  2:{ eexists. split;
        [ apply FolderNotWritable; [ exact E1 | exact E2 | exact E3 ]
        | reflexivity ]. }
  discriminate H.
Qed.

(** A start with a usable folder. *)
Lemma startRecording_good_folder (s : Sys) (perfOptions : list string)
    (outputPath : string) (recordAsSudo : bool) (recordOptions : list string)
    (wd : string) :
  folderUsable (world s) outputPath = true ->
  let w := world s in
  let prog := if recordAsSudo then sudoUtil w else "perf" in
  let args :=
    if recordAsSudo
    then (((sudoOptions w (sudoUtil w)
            ++ ["--"; "perf"; "record"; "-o"; outputPath])
           ++ perfOptions)
          ++ ["--"; "runuser"; "-u"; currentUsername w; "--"])
         ++ recordOptions
    else (["record"; "-o"; outputPath] ++ perfOptions) ++ recordOptions in
  startRecording perfOptions outputPath recordAsSudo recordOptions wd s
  = (tt,
     mkSys w
       (mkPerfRecord
          (Some (mkProcess (nextObject s) MergedChannels wd prog args
                   "Unknown error" true true true))
          outputPath (m_userTerminated (self s)))
       (S (nextObject s)),
     resetOf (self s)
     ++ [Emit (recordingStarted prog args); Start (nextObject s) prog args]).
Proof.
  intros H w prog args. unfold folderUsable in H.
  apply andb_prop in H. destruct H as [H E3].
  apply andb_prop in H. destruct H as [E1 E2].
  rewrite startRecording_run. rewrite E1, E2, E3. reflexivity.
Qed.

(** *** record *)

Lemma record_bad_target (s : Sys) (perfOptions : list string)
    (outputPath : string) (recordAsSudo : bool) (t : Target) :
  targetUsable (world s) t = false ->
  exists reason,
    BadTarget (world s) t reason
    /\ record perfOptions outputPath recordAsSudo t s
       = (tt, s, [Emit (recordingFailed reason)]).
Proof.
  destruct t as [pids | exePath exeOptions wd]; cbn [targetUsable record].
  - destruct pids as [|pid pids]; cbn; [ intros _ | discriminate ].
    eexists. split; [ apply NoProcess | reflexivity ].
  - intros H. unfold record_exe, bind. cbn [getWorld].
    unfold lookup in *.
    destruct (exists_ (fileInfo (world s) exePath)) eqn:E0; cbn [negb] in *.
    + rewrite E0 in *. cbn [negb andb] in *.
      destruct (isFile (fileInfo (world s) exePath)) eqn:E1; cbn [negb andb] in *.
      * destruct (isExecutable (fileInfo (world s) exePath)) eqn:E2;
          [ discriminate H | ].
        cbn [negb]. eexists. split; [ | reflexivity ].
        apply ExeNotExecutable; unfold lookup; rewrite E0; assumption.
      * eexists. split; [ | reflexivity ].
        apply ExeNotFile; unfold lookup; rewrite E0; assumption.
    + destruct (exists_ (fileInfo (world s) (findExecutable (world s) exePath)))
        eqn:F0; cbn [negb andb] in *.
      * destruct (isFile (fileInfo (world s) (findExecutable (world s) exePath)))
          eqn:F1; cbn [negb andb] in *.
        -- destruct (isExecutable
                       (fileInfo (world s) (findExecutable (world s) exePath)))
             eqn:F2; [ discriminate H | ].
           cbn [negb]. eexists. split; [ | reflexivity ].
           apply ExeNotExecutable; unfold lookup; rewrite E0; assumption.
        -- eexists. split; [ | reflexivity ].
           apply ExeNotFile; unfold lookup; rewrite E0; assumption.
      * eexists. split; [ | reflexivity ].
        apply ExeMissing. unfold lookup. rewrite E0. exact F0.
Qed.

Lemma record_good_target (s : Sys) (perfOptions : list string)
    (outputPath : string) (recordAsSudo : bool) (t : Target) :
  targetUsable (world s) t = true ->
  record perfOptions outputPath recordAsSudo t s
  = startRecording perfOptions outputPath recordAsSudo
      (targetCommand (world s) t) (targetDirectory t) s.
Proof.
  destruct t as [pids | exePath exeOptions wd];
    cbn [targetUsable record targetCommand targetDirectory].
  - destruct pids as [|pid pids]; [ discriminate | reflexivity ].
  - intros H. unfold record_exe, bind. cbn [getWorld].
    unfold lookup in *.
    destruct (exists_ (fileInfo (world s) exePath)) eqn:E0; cbn [negb] in *.
    + rewrite E0 in *. cbn [negb andb] in *.
      apply andb_prop in H. destruct H as [E1 E2]. rewrite E1, E2. cbn [negb app].
      destruct (startRecording _ _ _ _ _ s) as [[v s1] t1]. reflexivity.
    + apply andb_prop in H. destruct H as [H E2].
      apply andb_prop in H. destruct H as [F0 E1].
      rewrite F0, E1, E2. cbn [negb app].
      destruct (startRecording _ _ _ _ _ s) as [[v s1] t1]. reflexivity.
Qed.

(** *** Exit classification *)

Lemma exitAccepted_iff (s : Sys) (exitCode : Z) :
  let file := fileInfo (world s) (m_outputPath (self s)) in
  (0 <= size file)%Z ->
  exitAccepted s exitCode = true
  <-> (exitCode = 0%Z
       \/ (exitCode = SIGTERM /\ m_userTerminated (self s) = true)
       \/ size file <> 0%Z)
      /\ exists_ file = true.
Proof.
  intros file Hsize. unfold exitAccepted. fold file. unfold EXIT_SUCCESS.
  rewrite andb_true_iff, !orb_true_iff, andb_true_iff,
    !Z.eqb_eq, Z.ltb_lt.
  intuition lia.
Qed.

(** C1. When the process exits, the exit lambda counts the exit a success
    exactly if the exit code is zero, or it is SIGTERM with the
    user-terminated flag up, or the output file has a size other than
    zero, and in each case the output file exists.  A success runs
    [ensureFileReadable] and then notifies finished, or failed when the
    file could not be made readable; anything else notifies failed with
    the exit code printed in the message.  File sizes are byte counts. *)
Theorem exit_classification (s : Sys) (exitCode : Z) (exitStatus : ExitStatus) :
  let path := m_outputPath (self s) in
  let file := fileInfo (world s) path in
  let success :=
    (exitCode = 0%Z
     \/ (exitCode = SIGTERM /\ m_userTerminated (self s) = true)
     \/ size file <> 0%Z)
    /\ exists_ file = true in
  let fix_ := ensureFileReadable path s in
  (0 <= size file)%Z ->
  (success ->
   effects (onFinished exitCode exitStatus s)
   = effects fix_
     ++ [Emit (if value fix_ then recordingFinished path
               else recordingFailed "Unable to make data file readable.")])
  /\ (~ success ->
      effects (onFinished exitCode exitStatus s)
      = [Emit (recordingFailed
                 ("Failed to record perf data, error code "
                  ++ number exitCode ++ "."))]).
Proof.
  intros path file success fix_ Hsize.
  destruct (onFinished_run s exitCode exitStatus) as [He _].
  pose proof (exitAccepted_iff s exitCode Hsize) as Hiff.
  fold path file success in Hiff.
  split; intros H; rewrite He.
  - apply Hiff in H. rewrite H. reflexivity.
  - destruct (exitAccepted s exitCode); [ | reflexivity ].
    exfalso. apply H, Hiff. reflexivity.
Qed.

(** *** Refused start requests *)

Lemma BadTarget_unusable (w : World) (t : Target) (reason : string) :
  BadTarget w t reason -> targetUsable w t = false.
Proof.
  intros H. destruct H as [ | e o d H0 | e o d H0 H1 | e o d H0 H1 H2];
    cbn [targetUsable]; [ reflexivity | | | ];
    rewrite ?H0, ?H1, ?H2; reflexivity.
Qed.

Lemma BadTarget_functional (w : World) (t : Target) (r1 r2 : string) :
  BadTarget w t r1 -> BadTarget w t r2 -> r1 = r2.
Proof.
  intros H1 H2. inversion H1; subst; inversion H2; subst;
    try reflexivity; congruence.
Qed.

Lemma BadFolder_functional (w : World) (outputPath r1 r2 : string) :
  BadFolder w outputPath r1 -> BadFolder w outputPath r2 -> r1 = r2.
Proof.
  intros H1 H2. inversion H1; subst; inversion H2; subst;
    try reflexivity; congruence.
Qed.

Lemma Refused_functional (w : World) (outputPath : string) (t : Target)
    (r1 r2 : string) :
  Refused w outputPath t r1 -> Refused w outputPath t r2 -> r1 = r2.
Proof.
  intros [H1 | [Ht1 H1]] [H2 | [Ht2 H2]].
  - exact (BadTarget_functional w t r1 r2 H1 H2).
  - apply BadTarget_unusable in H1. congruence.
  - apply BadTarget_unusable in H2. congruence.
  - exact (BadFolder_functional w outputPath r1 r2 H1 H2).
Qed.

(** C2. A start request whose target or whose output folder is not usable
    sends exactly one notification, a failure, and spawns no process: no
    [start], no [execute].  The reason it carries is the one that
    corresponds to the request: that of the first check the target fails
    (no process, no such file, not a file, not executable, in this order),
    or else that of the first check the folder fails (missing, no
    directory, not writable).  No other reason corresponds. *)
Theorem refused_start_fails_once (s : Sys) (perfOptions : list string)
    (outputPath : string) (recordAsSudo : bool) (t : Target) :
  targetUsable (world s) t && folderUsable (world s) outputPath = false ->
  exists reason,
    Refused (world s) outputPath t reason
    /\ (forall other, Refused (world s) outputPath t other -> other = reason)
    /\ emitted (effects (record perfOptions outputPath recordAsSudo t s))
       = [recordingFailed reason]
    /\ spawned (effects (record perfOptions outputPath recordAsSudo t s)) = [].
Proof.
  intros H.
  destruct (targetUsable (world s) t) eqn:Ht.
  - cbn [andb] in H.
    rewrite (record_good_target s perfOptions outputPath recordAsSudo t Ht).
    destruct (startRecording_bad_folder s perfOptions outputPath recordAsSudo
                (targetCommand (world s) t) (targetDirectory t) H)
      as (reason & Hbad & Hrun).
    assert (Href : Refused (world s) outputPath t reason).
    { right. split; [ exact Ht | exact Hbad ]. }
    exists reason. rewrite Hrun. cbn [effects snd].
    rewrite emitted_app, spawned_app, emitted_resetOf, spawned_resetOf.
    split; [ exact Href | ].
    split; [ intros other Ho; exact (Refused_functional _ _ _ _ _ Ho Href) | ].
    split; reflexivity.
  - destruct (record_bad_target s perfOptions outputPath recordAsSudo t Ht)
      as (reason & Hbad & Hrun).
    assert (Href : Refused (world s) outputPath t reason) by (left; exact Hbad).
    exists reason. rewrite Hrun.
    split; [ exact Href | ].
    split; [ intros other Ho; exact (Refused_functional _ _ _ _ _ Ho Href) | ].
    split; reflexivity.
Qed.

(** *** Elevated recording *)

Lemma sudoOptions_helperFlags (w : World) (helper : string) :
  sudoOptions w helper = helperFlags w helper.
Proof.
  unfold sudoOptions, helperFlags.
  destruct (endsWith helper "/kdesu"); reflexivity.
Qed.

(** C4. An elevated start request that passes validation starts the sudo
    helper found by [sudoUtil] with the arguments: the flags of the
    helper ([-u root], then [-t --attach <window>] exactly when the helper
    is [kdesu]), [--], [perf record -o <output>] and the perf options,
    [--], [runuser -u <user> --], and the target command with its
    arguments.  The started notification carries the same program and
    arguments, and it is the only notification. *)
Theorem elevated_command_line (s : Sys) (perfOptions : list string)
    (outputPath : string) (t : Target) :
  targetUsable (world s) t = true ->
  folderUsable (world s) outputPath = true ->
  let w := world s in
  let helper := sudoUtil w in
  let args :=
    elevatedArguments w helper outputPath perfOptions (targetCommand w t) in
  let r := record perfOptions outputPath true t s in
  emitted (effects r) = [recordingStarted helper args]
  /\ spawned (effects r) = [Start (nextObject s) helper args].
Proof.
  intros Ht Hf w helper args r. unfold r.
  rewrite (record_good_target s perfOptions outputPath true t Ht).
  rewrite (startRecording_good_folder s perfOptions outputPath true
             (targetCommand (world s) t) (targetDirectory t) Hf).
  cbn [effects snd].
  rewrite emitted_app, spawned_app, emitted_resetOf, spawned_resetOf.
  rewrite sudoOptions_helperFlags.
  replace ((((helperFlags (world s) (sudoUtil (world s))
              ++ ["--"; "perf"; "record"; "-o"; outputPath])
             ++ perfOptions)
            ++ ["--"; "runuser"; "-u"; currentUsername (world s); "--"])
           ++ targetCommand (world s) t)
    with args.
  - split; reflexivity.
  - unfold args, elevatedArguments, helper, w, currentUsername.
    rewrite <- !app_assoc. reflexivity.
Qed.

(** *** The reset of the process object *)

Lemma no_kill_in_failure (id : nat) (reason : string) :
  ~ In (Kill id) [Emit (recordingFailed reason)].
Proof. intros [H | []]. discriminate H. Qed.

Lemma no_kill_in_launch (id n : nat) (prog : string) (args : list string) :
  ~ In (Kill id) [Emit (recordingStarted prog args); Start n prog args].
Proof. intros [H | [H | []]]; discriminate H. Qed.

(** C3, as the code has it.  A start request with a usable target kills
    the process object it finds, schedules its deletion and installs a
    fresh one before it looks at the output folder, so also when the
    folder is then refused.  A request with an unusable target changes
    nothing: the process object stays as it was and is not killed. *)
Theorem reset_precedes_folder_checks (s : Sys) (perfOptions : list string)
    (outputPath : string) (recordAsSudo : bool) (t : Target) :
  let r := record perfOptions outputPath recordAsSudo t s in
  (targetUsable (world s) t = true ->
   exists rest fresh,
     effects r = resetOf (self s) ++ rest
     /\ (forall id, ~ In (Kill id) rest)
     /\ m_perfRecordProcess (self (after r)) = Some fresh
     /\ objectId fresh = nextObject s)
  /\ (targetUsable (world s) t = false ->
      after r = s /\ forall id, ~ In (Kill id) (effects r)).
Proof.
  intros r. unfold r. split; intros Ht.
  - rewrite (record_good_target s perfOptions outputPath recordAsSudo t Ht).
    destruct (folderUsable (world s) outputPath) eqn:Hf.
    + rewrite (startRecording_good_folder s perfOptions outputPath recordAsSudo
                 (targetCommand (world s) t) (targetDirectory t) Hf).
      do 2 eexists. cbn [effects after self snd fst m_perfRecordProcess].
      split; [ reflexivity | ].
      split; [ intros id; apply no_kill_in_launch | ].
      split; reflexivity.
    + destruct (startRecording_bad_folder s perfOptions outputPath recordAsSudo
                  (targetCommand (world s) t) (targetDirectory t) Hf)
        as (reason & _ & Hrun).
      rewrite Hrun.
      do 2 eexists. cbn [effects after self snd fst m_perfRecordProcess set_process].
      split; [ reflexivity | ].
      split; [ intros id; apply no_kill_in_failure | ].
      split; reflexivity.
  - destruct (record_bad_target s perfOptions outputPath recordAsSudo t Ht)
      as (reason & _ & Hrun).
    rewrite Hrun. split; [ reflexivity | ].
    intros id. apply no_kill_in_failure.
Qed.

(** *** Sessions *)

Lemma occurAll_cons (x : Occurrence) (xs : list Occurrence) (s : Sys) :
  effects (occurAll (x :: xs) s)
  = effects (occur x s) ++ effects (occurAll xs (after (occur x s)))
  /\ after (occurAll (x :: xs) s) = after (occurAll xs (after (occur x s))).
Proof.
  cbn [occurAll]. rewrite effects_bind, after_bind. split; reflexivity.
Qed.

(** Terminal notifications over a stretch of a recording: one per exit
    signal, and one per error signal that finds the flag down. *)
Lemma terminal_count (xs : list Occurrence) :
  forall s : Sys,
    recording s ->
    List.length (terminal (effects (occurAll xs s)))
    = exits xs + reportedErrors (m_userTerminated (self s)) xs.
Proof.
  induction xs as [|x xs IH]; intros s Hrec.
  - reflexivity.
  - destruct (occurAll_cons x xs s) as [He _]. rewrite He.
    rewrite terminal_app, length_app.
    destruct (occur_step s x Hrec) as (Hrec' & Hflag & Hem).
    rewrite (IH _ Hrec'), Hflag.
    unfold terminal at 1. rewrite Hem.
    destruct x as [[c st | e d | bytes] | | w]; cbn [exits reportedErrors].
    + destruct (onFinished_one_terminal s c st) as (n & Hn & Hterm).
      rewrite Hn. cbn [filter]. rewrite Hterm. cbn [List.length]. lia.
    + destruct (m_userTerminated (self s)); cbn; lia.
    + cbn. lia.
    + cbn. lia.
    + cbn. lia.
Qed.

(** With the flag up and no exit signal, a recording stays as it is and
    only relays output. *)
Lemma quiet_until_exit (xs : list Occurrence) :
  forall s : Sys,
    recording s ->
    m_userTerminated (self s) = true ->
    forallb (fun x => negb (isExit x)) xs = true ->
    recording (after (occurAll xs s))
    /\ m_userTerminated (self (after (occurAll xs s))) = true
    /\ emitted (effects (occurAll xs s)) = flat_map outputOf xs.
Proof.
  induction xs as [|x xs IH]; intros s Hrec Hflag Hxs.
  - repeat split; assumption.
  - cbn [forallb] in Hxs. apply andb_prop in Hxs. destruct Hxs as [Hx Hxs].
    destruct (occurAll_cons x xs s) as [He Ha]. rewrite He, Ha.
    destruct (occur_step s x Hrec) as (Hrec' & Hflag' & Hem).
    assert (Hup : m_userTerminated (self (after (occur x s))) = true).
    { rewrite Hflag'.
      destruct x as [[c st | e d | bytes] | | w];
        try reflexivity; try exact Hflag; discriminate Hx. }
    destruct (IH _ Hrec' Hup Hxs) as (Hr & Hf & Ho).
    split; [ exact Hr | split; [ exact Hf | ] ].
    rewrite emitted_app, Ho, Hem, Hflag.
    destruct x as [[c st | e d | bytes] | | w];
      try reflexivity; discriminate Hx.
Qed.

Lemma stopRecording_raises (s : Sys) :
  recording s ->
  recording (after (stopRecording s))
  /\ m_userTerminated (self (after (stopRecording s))) = true
  /\ emitted (effects (stopRecording s)) = [].
Proof.
  intros Hrec. exact (occur_step s Stop Hrec).
Qed.

Lemma occurAll_app (xs ys : list Occurrence) :
  forall s : Sys,
    effects (occurAll (xs ++ ys) s)
    = effects (occurAll xs s) ++ effects (occurAll ys (after (occurAll xs s))).
Proof.
  induction xs as [|x xs IH]; intros s.
  - reflexivity.
  - cbn [app]. destruct (occurAll_cons x (xs ++ ys) s) as [He _].
    destruct (occurAll_cons x xs s) as [He' Ha'].
    rewrite He, He', Ha', IH. apply app_assoc.
Qed.

(** An accepted start request opens a recording: the three lambdas are
    connected, the output path is stored, the flag is left alone, and the
    only notification is the started one. *)
Lemma startRecording_opens (s : Sys) (perfOptions : list string)
    (outputPath : string) (recordAsSudo : bool) (recordOptions : list string)
    (wd : string) :
  folderUsable (world s) outputPath = true ->
  let r := startRecording perfOptions outputPath recordAsSudo recordOptions wd s in
  recording (after r)
  /\ m_userTerminated (self (after r)) = m_userTerminated (self s)
  /\ m_outputPath (self (after r)) = outputPath
  /\ world (after r) = world s
  /\ terminal (effects r) = [].
Proof.
  intros Hf r. unfold r.
  rewrite (startRecording_good_folder s perfOptions outputPath recordAsSudo
             recordOptions wd Hf).
  split.
  { eexists. split; [ reflexivity | ]. split; [ | split ]; reflexivity. }
  split; [ reflexivity | ]. split; [ reflexivity | ]. split; [ reflexivity | ].
  cbn [effects snd]. rewrite terminal_app. unfold terminal at 1.
  rewrite emitted_resetOf. reflexivity.
Qed.

(** C5, as the code has it.  Over a recording session, from an accepted
    start request through whatever follows, output notifications come as
    the process produces output; the exit lambda sends one finished or
    failed notification per exit signal, and the error lambda sends one
    more failed notification for each error signal that finds the
    user-terminated flag down.  A process that reports an error and then
    exits is therefore announced twice. *)
Theorem terminals_per_session (s : Sys) (perfOptions : list string)
    (outputPath : string) (recordAsSudo : bool) (t : Target)
    (xs : list Occurrence) :
  targetUsable (world s) t = true ->
  folderUsable (world s) outputPath = true ->
  List.length
    (terminal
       (effects ((record perfOptions outputPath recordAsSudo t ;; occurAll xs) s)))
  = exits xs + reportedErrors (m_userTerminated (self s)) xs.
Proof.
  intros Ht Hf.
  rewrite effects_bind, terminal_app, length_app.
  rewrite (record_good_target s perfOptions outputPath recordAsSudo t Ht).
  destruct (startRecording_opens s perfOptions outputPath recordAsSudo
              (targetCommand (world s) t) (targetDirectory t) Hf)
    as (Hrec & Hflag & _ & _ & Hterm).
  rewrite Hterm, (terminal_count xs _ Hrec), Hflag. reflexivity.
Qed.

(** *** The error lambda *)

(** C6. During a recording an error signal of the process makes the
    supervisor notify failed with the error string of the process exactly
    if the user-terminated flag is down.  After [stopRecording], up to the
    exit of the process, the supervisor only relays output whatever errors
    the process signals; the one notification that follows is that of the
    exit lambda. *)
Theorem error_reported_unless_user_terminated (s : Sys) :
  recording s ->
  (forall (e : ProcessError) (d : string),
      emitted (effects (deliver (errorOccurred e d) s))
      = if m_userTerminated (self s) then [] else [recordingFailed d])
  /\ (forall (xs : list Occurrence) (c : Z) (st : ExitStatus),
        forallb (fun x => negb (isExit x)) xs = true ->
        emitted
          (effects
             ((stopRecording ;; occurAll (xs ++ [Signal (finished c st)])) s))
        = flat_map outputOf xs
          ++ emitted
               (effects
                  (onFinished c st (after ((stopRecording ;; occurAll xs) s))))).
Proof.
  intros Hrec. split.
  - intros e d.
    destruct (occur_step s (Signal (errorOccurred e d)) Hrec) as (_ & _ & H).
    exact H.
  - intros xs c st Hxs.
    destruct (stopRecording_raises s Hrec) as (Hrec1 & Hflag1 & Hem1).
    destruct (quiet_until_exit xs _ Hrec1 Hflag1 Hxs) as (Hrec2 & _ & Hem2).
    rewrite effects_bind, after_bind, occurAll_app.
    rewrite !emitted_app, Hem1, Hem2. cbn [app]. f_equal.
    destruct (occurAll_cons (Signal (finished c st)) []
                (after (occurAll xs (after (stopRecording s))))) as [He _].
    rewrite He. cbn [occurAll ret effects snd]. rewrite app_nil_r.
    destruct (occur_step _ (Signal (finished c st)) Hrec2) as (_ & _ & H).
    exact H.
Qed.

(** *** The flag across recordings *)

(** C10. [startRecording] leaves the user-terminated flag alone.  If
    [stopRecording] was called during a recording and no exit signal has
    run the exit lambda since, the flag is still up when the next
    recording has started: error signals of the new process are not
    reported, and its exit with SIGTERM counts as a success as soon as the
    output file exists, whatever its size. *)
Theorem stale_flag_survives_restart (s0 : Sys) (xs : list Occurrence)
    (perfOptions : list string) (outputPath : string) (recordAsSudo : bool)
    (recordOptions : list string) (wd : string) :
  recording s0 ->
  forallb (fun x => negb (isExit x)) xs = true ->
  let s := after ((stopRecording ;; occurAll xs) s0) in
  folderUsable (world s) outputPath = true ->
  let s1 :=
    after (startRecording perfOptions outputPath recordAsSudo recordOptions wd s) in
  m_userTerminated (self s1) = true
  /\ (forall (e : ProcessError) (d : string),
        emitted (effects (deliver (errorOccurred e d) s1)) = [])
  /\ (forall st : ExitStatus,
        emitted (effects (deliver (finished SIGTERM st) s1))
        = if exists_ (fileInfo (world s1) outputPath)
          then [if value (ensureFileReadable outputPath s1)
                then recordingFinished outputPath
                else recordingFailed "Unable to make data file readable."]
          else [recordingFailed "Failed to record perf data, error code 15."]).
Proof.
  intros Hrec0 Hxs s Hf s1.
  destruct (stopRecording_raises s0 Hrec0) as (Hrec1 & Hflag1 & _).
  destruct (quiet_until_exit xs _ Hrec1 Hflag1 Hxs) as (_ & Hflag2 & _).
  assert (Hs : m_userTerminated (self s) = true).
  { unfold s. rewrite after_bind. exact Hflag2. }
  destruct (startRecording_opens s perfOptions outputPath recordAsSudo
              recordOptions wd Hf) as (Hrec & Hflag & Hpath & Hw & _).
  fold s1 in Hrec, Hflag, Hpath, Hw.
  assert (Hup : m_userTerminated (self s1) = true) by (rewrite Hflag; exact Hs).
  split; [ exact Hup | split ].
  - intros e d.
    destruct (occur_step s1 (Signal (errorOccurred e d)) Hrec) as (_ & _ & H).
    cbn [occur] in H. rewrite H, Hup. reflexivity.
  - intros st.
    destruct (occur_step s1 (Signal (finished SIGTERM st)) Hrec) as (_ & _ & H).
    cbn [occur] in H. rewrite H.
    destruct (onFinished_run s1 SIGTERM st) as [He _]. rewrite He.
    unfold exitAccepted. rewrite Hup, Hpath. cbn [Z.eqb SIGTERM EXIT_SUCCESS Pos.eqb andb orb].
    destruct (exists_ (fileInfo (world s1) outputPath)).
    + rewrite emitted_app.
      destruct (ensureFileReadable_frame s1 outputPath) as (_ & _ & Hq).
      rewrite Hq. reflexivity.
    + reflexivity.
Qed.

(** *** perfCommand *)

(** [perfCommand] reads the object and nothing else. *)
Lemma perfCommand_pure (s : Sys) :
  after (perfCommand s) = s /\ effects (perfCommand s) = [].
Proof.
  unfold perfCommand, bind. cbn [getSelf].
  destruct (m_perfRecordProcess (self s)); split; reflexivity.
Qed.

Lemma perfCommand_value (s : Sys) :
  value (perfCommand s)
  = match m_perfRecordProcess (self s) with
    | Some p => ("perf " ++ join " " (arguments p))%string
    | None => ""
    end.
Proof.
  unfold perfCommand, bind. cbn [getSelf].
  destruct (m_perfRecordProcess (self s)); reflexivity.
Qed.

End Properties.

(** ** The model at work on the desktop *)

Import Desktop.

Example parentDir_data : parentDir "/tmp/perf.data" = "/tmp".
Proof. reflexivity. Qed.

Example recordSleep_trace :
  effects (recordSleep (boot (desktop None)))
  = [Emit (recordingStarted "perf"
             ["record"; "-o"; "/tmp/perf.data"; "--call-graph"; "dwarf";
              "/usr/bin/sleep"; "1"]);
     Start 0 "perf"
       ["record"; "-o"; "/tmp/perf.data"; "--call-graph"; "dwarf";
        "/usr/bin/sleep"; "1"]].
Proof. reflexivity. Qed.

(** perf run as root leaves a data file the user cannot read; the exit
    lambda has the helper hand it over and then reports success. *)
Example root_file_is_handed_over :
  effects (onFinished 0 NormalExit (started (Some (rootFile 5000 dataPath))))
  = [Execute "/usr/bin/kdesu"
       ["-u"; "root"; "-t"; "--attach"; "4242"; "--"; "chown"; "alice:users";
        "/tmp/perf.data"];
     Emit (recordingFinished "/tmp/perf.data")].
Proof. reflexivity. Qed.

Example elevated_pid_recording :
  effects (record_pids ["-g"] dataPath true ["17"; "23"] (boot (desktop None)))
  = [Emit (recordingStarted "/usr/bin/kdesu"
             ["-u"; "root"; "-t"; "--attach"; "4242"; "--"; "perf"; "record";
              "-o"; "/tmp/perf.data"; "-g"; "--"; "runuser"; "-u"; "alice";
              "--"; "--pid"; "17,23"]);
     Start 0 "/usr/bin/kdesu"
       ["-u"; "root"; "-t"; "--attach"; "4242"; "--"; "perf"; "record";
        "-o"; "/tmp/perf.data"; "-g"; "--"; "runuser"; "-u"; "alice";
        "--"; "--pid"; "17,23"]].
Proof. reflexivity. Qed.

Lemma started_recording (dataFile : option QFileInfo) :
  recording (started dataFile).
Proof.
  eexists. split; [ reflexivity | ]. split; [ | split ]; reflexivity.
Defined.



(** C8, at work: a readable data file; an unreadable one with no helper
    installed; an unreadable one that the helper hands over. *)
Lemma ensureFileReadable_cases_witness :
  ensureFileReadable dataPath (started (Some (userFile 10 dataPath)))
  = (true, started (Some (userFile 10 dataPath)), [])
  /\ ensureFileReadable dataPath (boot (bare (Some (rootFile 10 dataPath))))
     = (false, boot (bare (Some (rootFile 10 dataPath))), [])
  /\ (value (ensureFileReadable dataPath (started (Some (rootFile 10 dataPath))))
      = true
      /\ effects (ensureFileReadable dataPath (started (Some (rootFile 10 dataPath))))
         = [Execute "/usr/bin/kdesu"
              ["-u"; "root"; "-t"; "--attach"; "4242"; "--"; "chown";
               "alice:users"; "/tmp/perf.data"]]).
Proof.
  split; [ | split ].
  - destruct (ensureFileReadable_cases (P := platform)
                (started (Some (userFile 10 dataPath))) dataPath) as (H & _ & _).
    apply H. reflexivity.
  - destruct (ensureFileReadable_cases (P := platform)
                (boot (bare (Some (rootFile 10 dataPath)))) dataPath)
      as (_ & H & _).
    apply H; [ reflexivity | left; reflexivity ].
  - destruct (ensureFileReadable_cases (P := platform)
                (started (Some (rootFile 10 dataPath))) dataPath)
      as (_ & _ & H).
    rewrite H; [ split; reflexivity | reflexivity | | ];
      intros Hempty; discriminate Hempty.
Defined.

(** C1, at work: exit code 1 with an empty data file. *)
Lemma exit_classification_witness :
  (0 <= size (fileInfo (world (started (Some (userFile 0 dataPath)))) dataPath))%Z
  /\ effects (onFinished 1 NormalExit (started (Some (userFile 0 dataPath))))
     = [Emit (recordingFailed "Failed to record perf data, error code 1.")].
Proof.
  assert (Hsize :
    (0 <= size (fileInfo (world (started (Some (userFile 0 dataPath)))) dataPath))%Z)
    by (vm_compute; discriminate).
  split; [ exact Hsize | ].
  destruct (exit_classification (P := platform)
              (started (Some (userFile 0 dataPath))) 1 NormalExit Hsize)
    as [_ Hfail].
  apply Hfail.
  intros [[H | [[H _] | H]] _];
    [ discriminate H | discriminate H | apply H; reflexivity ].
Defined.

(** C2, at work: the output folder does not exist. *)
Lemma refused_start_fails_once_witness :
  exists reason,
    Refused (world (boot (desktop None))) "/nonexistent/perf.data"
      (Program "sleep" ["1"] "") reason
    /\ (forall other,
          Refused (world (boot (desktop None))) "/nonexistent/perf.data"
            (Program "sleep" ["1"] "") other ->
          other = reason)
    /\ emitted
         (effects
            (record [] "/nonexistent/perf.data" false (Program "sleep" ["1"] "")
               (boot (desktop None))))
       = [recordingFailed reason]
    /\ spawned
         (effects
            (record [] "/nonexistent/perf.data" false (Program "sleep" ["1"] "")
               (boot (desktop None))))
       = [].
Proof.
  apply (refused_start_fails_once (P := platform) (boot (desktop None)) []
           "/nonexistent/perf.data" false (Program "sleep" ["1"] "")).
  reflexivity.
Defined.

(** C3, refuted: a recording is under way, the next start request names a
    folder that does not exist, and the process object of the recording is
    killed and replaced all the same. *)
Lemma failed_start_kills_previous :
  let s0 := started None in
  let r := recordNowhere s0 in
  folderUsable (world s0) "/nonexistent/perf.data" = false
  /\ option_map objectId (m_perfRecordProcess (self s0)) = Some 0
  /\ effects r
     = [Kill 0; DeleteLater 0;
        Emit (recordingFailed "Folder '/nonexistent' does not exist.")]
  /\ In (Kill 0) (effects r)
  /\ m_perfRecordProcess (self (after r)) <> m_perfRecordProcess (self s0).
Proof.
  cbv zeta.
  split; [ reflexivity | ]. split; [ reflexivity | ]. split; [ reflexivity | ].
  split; [ left; reflexivity | ].
  vm_compute. discriminate.
Qed.

(** C3, at work: one request with a usable target and a missing folder, one
    with a target that is not there. *)
Lemma reset_precedes_folder_checks_witness :
  (exists rest fresh,
      effects (record [] "/nonexistent/perf.data" false
                 (Program "sleep" ["1"] "") (started None))
      = resetOf (self (started None)) ++ rest
      /\ (forall id, ~ In (Kill id) rest)
      /\ m_perfRecordProcess
           (self (after (record [] "/nonexistent/perf.data" false
                           (Program "sleep" ["1"] "") (started None))))
         = Some fresh
      /\ objectId fresh = nextObject (started None))
  /\ (after (record [] dataPath false (Program "nosuchtool" [] "") (started None))
      = started None
      /\ forall id,
          ~ In (Kill id)
              (effects (record [] dataPath false (Program "nosuchtool" [] "")
                          (started None)))).
Proof.
  split.
  - apply (reset_precedes_folder_checks (P := platform) (started None) []
             "/nonexistent/perf.data" false (Program "sleep" ["1"] "")).
    reflexivity.
  - apply (reset_precedes_folder_checks (P := platform) (started None) []
             dataPath false (Program "nosuchtool" [] "")).
    reflexivity.
Defined.

(** C4, at work: an elevated recording of [sleep 1]. *)
Lemma elevated_command_line_witness :
  emitted
    (effects (record ["-g"] dataPath true (Program "sleep" ["1"] "")
                (boot (desktop None))))
  = [recordingStarted "/usr/bin/kdesu"
       ["-u"; "root"; "-t"; "--attach"; "4242"; "--"; "perf"; "record"; "-o";
        "/tmp/perf.data"; "-g"; "--"; "runuser"; "-u"; "alice"; "--";
        "/usr/bin/sleep"; "1"]]
  /\ spawned
       (effects (record ["-g"] dataPath true (Program "sleep" ["1"] "")
                   (boot (desktop None))))
     = [Start 0 "/usr/bin/kdesu"
          ["-u"; "root"; "-t"; "--attach"; "4242"; "--"; "perf"; "record"; "-o";
           "/tmp/perf.data"; "-g"; "--"; "runuser"; "-u"; "alice"; "--";
           "/usr/bin/sleep"; "1"]].
Proof.
  apply (elevated_command_line (P := platform) (boot (desktop None)) ["-g"]
           dataPath (Program "sleep" ["1"] "")); reflexivity.
Defined.

(** C5, refuted: perf crashes, [QProcess] signals the error and then the
    exit, and the session ends with two failed notifications. *)
Lemma crash_is_announced_twice :
  terminal (effects ((recordSleep ;; occurAll crash) (boot (desktop None))))
  = [recordingFailed "Process crashed";
     recordingFailed "Failed to record perf data, error code 11."].
Proof. reflexivity. Qed.

(** C5, at work: the crash is counted as one exit and one reported error. *)
Lemma terminals_per_session_witness :
  List.length
    (terminal
       (effects
          ((record ["--call-graph"; "dwarf"] dataPath false
              (Program "sleep" ["1"] "") ;; occurAll crash)
             (boot (desktop None)))))
  = 2.
Proof.
  apply (terminals_per_session (P := platform) (boot (desktop None))
           ["--call-graph"; "dwarf"] dataPath false (Program "sleep" ["1"] "")
           crash); reflexivity.
Defined.

(** C6, at work: a stopped perf reports a crash and exits with SIGTERM. *)
Lemma error_reported_unless_user_terminated_witness :
  emitted
    (effects
       ((stopRecording ;; occurAll (stopped ++ [Signal (finished 15 CrashExit)]))
          (started (Some (userFile 0 dataPath)))))
  = [recordingOutput "[ perf record: Woken up 1 times to write data ]";
     recordingFinished "/tmp/perf.data"].
Proof.
  destruct (error_reported_unless_user_terminated (P := platform)
              (started (Some (userFile 0 dataPath)))
              (started_recording (Some (userFile 0 dataPath))))
    as [_ H].
  apply (H stopped 15%Z CrashExit). reflexivity.
Defined.

(** C9, on the code: a fresh supervisor is asked to record into a folder
    that does not exist.  The request is refused and nothing was configured,
    yet [perfCommand] answers ["perf "], not the empty string. *)
Theorem perfCommand_after_refused_start :
  perfCommand (boot (desktop None)) = ("", boot (desktop None), [])
  /\ emitted (effects (recordNowhere (boot (desktop None))))
     = [recordingFailed "Folder '/nonexistent' does not exist."]
  /\ perfCommand (after (recordNowhere (boot (desktop None))))
     = ("perf ", after (recordNowhere (boot (desktop None))), []).
Proof. repeat split. Qed.

(** C10, at work: the user stops a recording whose exit is never seen and
    starts the next; the new perf fails and ends with SIGTERM on an empty
    data file, which is announced as a finished recording. *)
Lemma stale_flag_survives_restart_witness :
  let s :=
    after ((stopRecording ;; occurAll stopped)
             (started (Some (userFile 0 dataPath)))) in
  let s1 :=
    after (startRecording [] dataPath false ["/usr/bin/sleep"; "1"] "" s) in
  m_userTerminated (self s1) = true
  /\ emitted (effects (deliver (errorOccurred FailedToStart "No such file") s1)) = []
  /\ emitted (effects (deliver (finished SIGTERM NormalExit) s1))
     = [recordingFinished "/tmp/perf.data"].
Proof.
  destruct (stale_flag_survives_restart (P := platform)
              (started (Some (userFile 0 dataPath))) stopped
              [] dataPath false ["/usr/bin/sleep"; "1"] ""
              (started_recording (Some (userFile 0 dataPath)))
              eq_refl eq_refl)
    as (Hflag & Herr & Hexit).
  split; [ exact Hflag | split ].
  - exact (Herr FailedToStart "No such file").
  - exact (Hexit NormalExit).
Defined.

(** ** Further properties of the class *)

Section Histories.

Context {P : Platform}.

(** *** What one step does *)

Lemma onFinished_after (s : Sys) (c : Z) (st : ExitStatus) :
  self (after (onFinished c st s)) = set_userTerminated false (self s)
  /\ nextObject (after (onFinished c st s)) = nextObject s
  /\ forallb calm (effects (onFinished c st s)) = true.
Proof.
  destruct (onFinished_run s c st) as [He Hs].
  split; [ exact Hs | ]. split.
  - unfold onFinished.
    rewrite after_bind. cbn [getSelf value after fst snd].
    rewrite after_bind. cbn [getWorld value after fst snd].
    rewrite after_bind.
    destruct (((c =? EXIT_SUCCESS)%Z
               || (c =? SIGTERM)%Z && m_userTerminated (self s)
               || (0 <? size (fileInfo (world s) (m_outputPath (self s))))%Z)
              && exists_ (fileInfo (world s) (m_outputPath (self s)))).
    + rewrite after_bind.
      destruct (ensureFileReadable_frame s (m_outputPath (self s))) as (_ & Hn & _).
      destruct (ensureFileReadable (m_outputPath (self s)) s) as [[v s1] t].
      cbn in Hn |- *. destruct v; cbn; exact Hn.
    + reflexivity.
  - rewrite He. destruct (exitAccepted s c); [ | reflexivity ].
    rewrite forallb_app. apply andb_true_iff. split.
    + rewrite ensureFileReadable_run.
      destruct (isReadable (fileInfo (world s) (m_outputPath (self s))));
        [ reflexivity | ].
      destruct (isEmpty (sudoUtil (world s)) || isEmpty (currentUsername (world s)));
        reflexivity.
    + destruct (value (ensureFileReadable (m_outputPath (self s)) s)); reflexivity.
Qed.

Lemma setErrorString_same (p : QProcess) : setErrorString (errorString p) p = p.
Proof. destruct p; reflexivity. Qed.

(** Delivery of a signal, whatever the state of the supervisor. *)
Lemma deliver_run (s : Sys) (sig : ProcessSignal) :
  deliver sig s
  = match m_perfRecordProcess (self s) with
    | None => (tt, s, [])
    | Some p =>
        match sig with
        | finished c st =>
            if finishedConnected p then onFinished c st s else (tt, s, [])
        | errorOccurred _ d =>
            (tt,
             mkSys (world s) (set_process (Some (setErrorString d p)) (self s))
               (nextObject s),
             if errorOccurredConnected p && negb (m_userTerminated (self s))
             then [Emit (recordingFailed d)] else [])
        | readyRead bytes =>
            (tt, s,
             if readyReadConnected p
             then [Emit (recordingOutput (fromUtf8 bytes))] else [])
        end
    end.
Proof.
  unfold deliver, bind. cbn [getSelf].
  destruct (m_perfRecordProcess (self s)) as [p|] eqn:Hp; cbv beta iota;
    [ | reflexivity ].
  destruct sig as [c st | e d | bytes].
  - destruct (finishedConnected p); [ | reflexivity ].
    destruct (onFinished c st s) as [[v s1] t]. reflexivity.
  - unfold onProcess, modify, onErrorOccurred, bind. cbn. rewrite Hp. cbn.
    destruct (errorOccurredConnected p); cbn; [ | reflexivity ].
    destruct (m_userTerminated (self s)); reflexivity.
  - destruct (readyReadConnected p); reflexivity.
Qed.

Lemma stopRecording_any (s : Sys) :
  stopRecording s
  = match m_perfRecordProcess (self s) with
    | Some p =>
        (tt,
         mkSys (world s) (set_userTerminated true (self s)) (nextObject s),
         [Terminate (objectId p)])
    | None => (tt, s, [])
    end.
Proof.
  unfold stopRecording, bind. cbn [getSelf].
  destruct (m_perfRecordProcess (self s)); reflexivity.
Qed.

(** Nothing that happens to a supervisor replaces its process object,
    allocates, moves the output path, or starts or kills anything. *)
Lemma occur_frame (s : Sys) (x : Occurrence) :
  (exists e,
      m_perfRecordProcess (self (after (occur x s)))
      = option_map (setErrorString e) (m_perfRecordProcess (self s)))
  /\ nextObject (after (occur x s)) = nextObject s
  /\ m_outputPath (self (after (occur x s))) = m_outputPath (self s)
  /\ forallb calm (effects (occur x s)) = true.
Proof.
  assert (Hkeep : forall o : option QProcess,
             exists e, o = option_map (setErrorString e) o).
  { intros [p|]; [ exists (errorString p) | exists "" ]; cbn;
      [ rewrite setErrorString_same | ]; reflexivity. }
  destruct x as [sig | | w]; cbn [occur].
  - rewrite deliver_run.
    destruct (m_perfRecordProcess (self s)) as [p|] eqn:Hp.
    2:{ cbn. rewrite Hp. split; [ exists ""; reflexivity | auto ]. }
    destruct sig as [c st | e d | bytes].
    + destruct (finishedConnected p).
      * destruct (onFinished_after s c st) as (Hs & Hn & Hc).
        rewrite Hs. cbn. rewrite Hp.
        split; [ apply (Hkeep (Some p)) | auto ].
      * cbn. rewrite Hp. split; [ apply (Hkeep (Some p)) | auto ].
    + cbn. split; [ exists d; reflexivity | ].
      split; [ reflexivity | ]. split; [ reflexivity | ].
      destruct (errorOccurredConnected p && negb (m_userTerminated (self s)));
        reflexivity.
    + cbn. rewrite Hp. split; [ apply (Hkeep (Some p)) | ].
      split; [ reflexivity | ]. split; [ reflexivity | ].
      destruct (readyReadConnected p); reflexivity.
  - rewrite stopRecording_any.
    destruct (m_perfRecordProcess (self s)) as [p|] eqn:Hp; cbn; rewrite Hp;
      [ split; [ apply (Hkeep (Some p)) | auto ]
      | split; [ exists ""; reflexivity | auto ] ].
  - cbn. split; [ apply Hkeep | auto ].
Qed.

(** The three ways a call of [record] can go. *)
Lemma request_cases (s : Sys) (perfOptions : list string) (outputPath : string)
    (recordAsSudo : bool) (t : Target) :
  let r := record perfOptions outputPath recordAsSudo t s in
  (targetUsable (world s) t = false
   /\ exists reason, r = (tt, s, [Emit (recordingFailed reason)]))
  \/ (targetUsable (world s) t = true
      /\ folderUsable (world s) outputPath = false
      /\ exists reason,
          r = (tt,
               mkSys (world s)
                 (set_process
                    (Some (setProcessChannelMode MergedChannels
                             (newProcess (nextObject s))))
                    (self s))
                 (S (nextObject s)),
               resetOf (self s) ++ [Emit (recordingFailed reason)]))
  \/ (targetUsable (world s) t = true
      /\ folderUsable (world s) outputPath = true
      /\ exists prog args,
          r = (tt,
               mkSys (world s)
                 (mkPerfRecord
                    (Some (mkProcess (nextObject s) MergedChannels
                             (targetDirectory t) prog args "Unknown error"
                             true true true))
                    outputPath (m_userTerminated (self s)))
                 (S (nextObject s)),
               resetOf (self s)
               ++ [Emit (recordingStarted prog args);
                   Start (nextObject s) prog args])).
Proof.
  intros r. unfold r.
  destruct (targetUsable (world s) t) eqn:Ht.
  - rewrite (record_good_target s perfOptions outputPath recordAsSudo t Ht).
    destruct (folderUsable (world s) outputPath) eqn:Hf.
    + right. right. split; [ reflexivity | ]. split; [ reflexivity | ].
      rewrite (startRecording_good_folder s perfOptions outputPath recordAsSudo
                 (targetCommand (world s) t) (targetDirectory t) Hf).
      do 2 eexists. reflexivity.
    + right. left. split; [ reflexivity | ]. split; [ reflexivity | ].
      destruct (startRecording_bad_folder s perfOptions outputPath recordAsSudo
                  (targetCommand (world s) t) (targetDirectory t) Hf)
        as (reason & _ & Hrun).
      exists reason. exact Hrun.
  - left. split; [ reflexivity | ].
    destruct (record_bad_target s perfOptions outputPath recordAsSudo t Ht)
      as (reason & _ & Hrun).
    exists reason. exact Hrun.
Qed.

Lemma actAll_cons (a : Action) (h : list Action) (s : Sys) :
  effects (actAll (a :: h) s)
  = effects (act a s) ++ effects (actAll h (after (act a s)))
  /\ after (actAll (a :: h) s) = after (actAll h (after (act a s))).
Proof.
  cbn [actAll]. rewrite effects_bind, after_bind. split; reflexivity.
Qed.

Lemma actAll_app (h1 h2 : list Action) :
  forall s : Sys,
    effects (actAll (h1 ++ h2) s)
    = effects (actAll h1 s) ++ effects (actAll h2 (after (actAll h1 s)))
    /\ after (actAll (h1 ++ h2) s) = after (actAll h2 (after (actAll h1 s))).
Proof.
  induction h1 as [|a h1 IH]; intros s.
  - split; reflexivity.
  - cbn [app]. destruct (actAll_cons a (h1 ++ h2) s) as [He Ha].
    destruct (actAll_cons a h1 s) as [He' Ha'].
    destruct (IH (after (act a s))) as [IHe IHa].
    rewrite He, Ha, He', Ha', IHe, IHa. split; [ apply app_assoc | reflexivity ].
Qed.

(** *** Reading calm traces *)

Lemma calm_reads (t : list Effect) :
  forallb calm t = true ->
  flat_map announcedOf t = []
  /\ flat_map launchedOf t = []
  /\ startIds t = []
  /\ forall running rest, oneAtATime running (t ++ rest) = oneAtATime running rest.
Proof.
  induction t as [|e t IH]; intros H.
  - repeat split.
  - cbn [forallb] in H. apply andb_prop in H. destruct H as [He Ht].
    destruct (IH Ht) as (H1 & H2 & H3 & H4).
    unfold startIds in *. cbn [flat_map app].
    rewrite H1, H2, H3.
    destruct e as [[prog args | text | path | msg] | id | id | id | id prog args
                  | prog args];
      try discriminate He; cbn; (split; [ | split; [ | split ] ]);
      try reflexivity; intros running rest; apply H4.
Qed.

Lemma resetOf_calmly (o : PerfRecord) :
  flat_map announcedOf (resetOf o) = []
  /\ flat_map launchedOf (resetOf o) = []
  /\ startIds (resetOf o) = [].
Proof.
  unfold resetOf, startIds. destruct (m_perfRecordProcess o); repeat split.
Qed.

Lemma reset_clears (running : option nat) (s : Sys) (rest : list Effect) :
  held running s ->
  oneAtATime running (resetOf (self s) ++ rest) = oneAtATime None rest.
Proof.
  unfold held, resetOf. intros H.
  destruct (m_perfRecordProcess (self s)) as [p|] eqn:Hp.
  - destruct running as [r|]; [ | reflexivity ].
    destruct H as (p' & Hp' & Hid). injection Hp' as ->. subst r.
    cbn. rewrite Nat.eqb_refl. reflexivity.
  - destruct running as [r|]; [ | reflexivity ].
    destruct H as (p' & Hp' & _). discriminate Hp'.
Qed.

(** *** Announcements and launches *)

(** X3. Through any history, from any state, the commands carried by the
    started notifications are exactly the commands handed to
    [QProcess::start], in the same order: nothing is announced that is not
    started, and nothing is started unannounced. *)
Theorem started_matches_launched (h : list Action) :
  forall s : Sys,
    flat_map announcedOf (effects (actAll h s))
    = flat_map launchedOf (effects (actAll h s)).
Proof.
  induction h as [|a h IH]; intros s.
  - reflexivity.
  - destruct (actAll_cons a h s) as [He _]. rewrite He, !flat_map_app, IH.
    f_equal.
    destruct a as [perfOptions outputPath recordAsSudo t | x]; cbn [act].
    + destruct (request_cases s perfOptions outputPath recordAsSudo t)
        as [(_ & reason & Hr) | [(_ & _ & reason & Hr) | (_ & _ & prog & args & Hr)]];
        rewrite Hr; cbn [effects snd]; rewrite ?flat_map_app;
        destruct (resetOf_calmly (self s)) as (H1 & H2 & _);
        rewrite ?H1, ?H2; reflexivity.
    + destruct (occur_frame s x) as (_ & _ & _ & Hc).
      destruct (calm_reads _ Hc) as (H1 & H2 & _). rewrite H1, H2. reflexivity.
Qed.

(** *** Process objects *)

Lemma act_allocates (s : Sys) (a : Action) :
  (startIds (effects (act a s)) = []
   /\ nextObject s <= nextObject (after (act a s)))
  \/ (startIds (effects (act a s)) = [nextObject s]
      /\ nextObject (after (act a s)) = S (nextObject s)).
Proof.
  destruct a as [perfOptions outputPath recordAsSudo t | x]; cbn [act].
  - destruct (resetOf_calmly (self s)) as (_ & _ & H3).
    destruct (request_cases s perfOptions outputPath recordAsSudo t)
      as [(_ & reason & Hr) | [(_ & _ & reason & Hr) | (_ & _ & prog & args & Hr)]];
      rewrite Hr; cbn [effects after fst snd nextObject]; unfold startIds in *;
      rewrite ?flat_map_app, ?H3.
    + left. split; [ reflexivity | lia ].
    + left. split; [ reflexivity | lia ].
    + right. split; reflexivity.
  - destruct (occur_frame s x) as (_ & Hn & _ & Hc).
    destruct (calm_reads _ Hc) as (_ & _ & H3 & _).
    left. rewrite H3, Hn. split; [ reflexivity | lia ].
Qed.

Lemma starts_are_fresh (h : list Action) :
  forall s : Sys,
    Forall (fun id => nextObject s <= id) (startIds (effects (actAll h s)))
    /\ NoDup (startIds (effects (actAll h s))).
Proof.
  induction h as [|a h IH]; intros s.
  - split; constructor.
  - destruct (actAll_cons a h s) as [He _]. rewrite He.
    unfold startIds in *. rewrite flat_map_app.
    destruct (IH (after (act a s))) as [Hge Hnd].
    destruct (act_allocates s a) as [[H0 Hle] | [H1 Hs]]; unfold startIds in *.
    + rewrite H0. cbn [app]. split; [ | exact Hnd ].
      eapply Forall_impl; [ | exact Hge ]. cbn. intros id Hid. lia.
    + rewrite H1. cbn [app]. rewrite Hs in Hge. split.
      * constructor; [ lia | ].
        eapply Forall_impl; [ | exact Hge ]. cbn. intros id Hid. lia.
      * constructor; [ | exact Hnd ].
        intros Hin. rewrite Forall_forall in Hge. apply Hge in Hin. lia.
Qed.

(** X4. Through any history, from any state, no process object is started
    twice: the identities handed to [QProcess::start] are pairwise
    distinct, and each belongs to an object created during the history. *)
Theorem no_object_started_twice (h : list Action) (s : Sys) :
  NoDup (startIds (effects (actAll h s)))
  /\ Forall (fun id => nextObject s <= id) (startIds (effects (actAll h s))).
Proof.
  destruct (starts_are_fresh h s) as [Hge Hnd]. split; assumption.
Qed.

Lemma held_step (running : option nat) (s : Sys) (a : Action)
    (rest : list Effect) :
  held running s ->
  exists running',
    held running' (after (act a s))
    /\ oneAtATime running (effects (act a s) ++ rest)
       = oneAtATime running' rest.
Proof.
  intros Hheld.
  destruct a as [perfOptions outputPath recordAsSudo t | x]; cbn [act].
  - destruct (request_cases s perfOptions outputPath recordAsSudo t)
      as [(_ & reason & Hr) | [(_ & _ & reason & Hr) | (_ & _ & prog & args & Hr)]];
      rewrite Hr; cbn [effects after fst snd].
    + exists running. split; [ exact Hheld | reflexivity ].
    + exists None. split; [ exact I | ].
      rewrite <- app_assoc, (reset_clears running s _ Hheld). reflexivity.
    + exists (Some (nextObject s)). split.
      * eexists. split; reflexivity.
      * rewrite <- app_assoc, (reset_clears running s _ Hheld). reflexivity.
  - destruct (occur_frame s x) as ((e & Hp) & _ & _ & Hc).
    destruct (calm_reads _ Hc) as (_ & _ & _ & H4).
    exists running. split; [ | apply H4 ].
    destruct running as [r|]; [ | exact I ].
    destruct Hheld as (p & Hp0 & Hid).
    exists (setErrorString e p). rewrite Hp, Hp0. split; [ reflexivity | exact Hid ].
Qed.

Lemma held_history (h : list Action) :
  forall (running : option nat) (s : Sys),
    held running s ->
    exists last, oneAtATime running (effects (actAll h s)) = Some last.
Proof.
  induction h as [|a h IH]; intros running s Hheld.
  - exists running. reflexivity.
  - destruct (actAll_cons a h s) as [He _]. rewrite He.
    destruct (held_step running s a (effects (actAll h (after (act a s)))) Hheld)
      as (running' & Hheld' & Hread).
    rewrite Hread. apply IH. exact Hheld'.
Qed.

(** X5. One process at a time.  In the trace of any history of a fresh
    supervisor, whenever [QProcess::start] is called, every process started
    before it has since been sent [kill]. *)
Theorem one_process_at_a_time (w : World) (n : nat) (h : list Action) :
  exists last,
    oneAtATime None (effects (actAll h (mkSys w PerfRecord_new n))) = Some last.
Proof.
  apply held_history. exact I.
Qed.

Lemma tidy_step (s : Sys) (a : Action) : tidy s -> tidy (after (act a s)).
Proof.
  unfold tidy. intros Ht.
  destruct a as [perfOptions outputPath recordAsSudo t | x]; cbn [act].
  - destruct (request_cases s perfOptions outputPath recordAsSudo t)
      as [(_ & reason & Hr) | [(_ & _ & reason & Hr) | (_ & _ & prog & args & Hr)]];
      rewrite Hr; cbn [after fst snd self nextObject m_perfRecordProcess set_process].
    + exact Ht.
    + cbn. repeat split; lia.
    + cbn. repeat split; try lia; discriminate.
  - destruct (occur_frame s x) as ((e & Hp) & Hn & _ & _).
    rewrite Hp, Hn.
    destruct (m_perfRecordProcess (self s)) as [p|]; [ | exact I ].
    cbn. exact Ht.
Qed.

(** X15. Whatever the history of a fresh supervisor, the process object it
    holds, if any, has its output channels merged, was created by the
    supervisor itself, and listens with all three lambdas or with none; an
    object with no lambda connected was never given a command. *)
Theorem handle_stays_tidy (w : World) (n : nat) (h : list Action) :
  tidy (after (actAll h (mkSys w PerfRecord_new n))).
Proof.
  assert (H : forall s, tidy s -> tidy (after (actAll h s))).
  { induction h as [|a h IH]; intros s Hs.
    - exact Hs.
    - destruct (actAll_cons a h s) as [_ Ha]. rewrite Ha.
      apply IH, tidy_step, Hs. }
  apply H. exact I.
Qed.

(** *** The sudo helper *)

(** X2. The loop of [sudoUtil] answers with what the search path finds for
    the first candidate it finds anything for: it answers the empty string
    exactly if no candidate is found, and otherwise every candidate ahead
    of the one taken was not found.  With the candidates of the source,
    [kdesu] is preferred to [gksu]. *)
Theorem first_found_helper (w : World) (commands : list string) :
  (firstExecutable w commands = ""
   <-> Forall (fun cmd => findExecutable w cmd = "") commands)
  /\ (firstExecutable w commands <> "" ->
      exists pre cmd post,
        commands = pre ++ cmd :: post
        /\ Forall (fun c => findExecutable w c = "") pre
        /\ firstExecutable w commands = findExecutable w cmd).
Proof.
  induction commands as [|cmd rest [IHiff IHsome]]; cbn [firstExecutable].
  - split; [ split; [ constructor | reflexivity ] | ].
    intros H. contradiction H. reflexivity.
  - destruct (isEmpty (findExecutable w cmd)) eqn:E; cbn [negb].
    + apply isEmpty_true in E. split.
      * rewrite IHiff. split; intros H.
        -- constructor; assumption.
        -- inversion H; assumption.
      * intros H. destruct (IHsome H) as (pre & c & post & Hc & Hpre & Hf).
        exists (cmd :: pre), c, post.
        split; [ rewrite Hc; reflexivity | ].
        split; [ constructor; assumption | exact Hf ].
    + assert (Hne : findExecutable w cmd <> "").
      { intros H. apply isEmpty_true in H. rewrite H in E. discriminate E. }
      split.
      * split; intros H; [ contradiction | ].
        inversion H; contradiction.
      * intros _. exists [], cmd, rest.
        split; [ reflexivity | ]. split; [ constructor | reflexivity ].
Qed.

(** *** Recording without elevation *)

(** X1. A start request without elevation that passes validation starts
    [perf] itself with [record -o <output>], the perf options and the
    target command, in this order, and the started notification carries the
    same command; neither the sudo helper nor [runuser] appears. *)
Theorem plain_command_line (s : Sys) (perfOptions : list string)
    (outputPath : string) (t : Target) :
  targetUsable (world s) t = true ->
  folderUsable (world s) outputPath = true ->
  let args :=
    ["record"; "-o"; outputPath] ++ perfOptions ++ targetCommand (world s) t in
  let r := record perfOptions outputPath false t s in
  emitted (effects r) = [recordingStarted "perf" args]
  /\ spawned (effects r) = [Start (nextObject s) "perf" args].
Proof.
  intros Ht Hf args r. unfold r.
  rewrite (record_good_target s perfOptions outputPath false t Ht).
  rewrite (startRecording_good_folder s perfOptions outputPath false
             (targetCommand (world s) t) (targetDirectory t) Hf).
  cbn [effects snd].
  rewrite emitted_app, spawned_app, emitted_resetOf, spawned_resetOf.
  unfold args. rewrite <- app_assoc. split; reflexivity.
Qed.

(** X14. An accepted start request takes nothing over from the recording
    before it but the user-terminated flag: two supervisors on the same
    file system that agree on the flag and on the next object identity are
    in the same state after the same accepted request, whatever process
    object and output path each held before. *)
Theorem accepted_start_forgets (s s' : Sys) (perfOptions : list string)
    (outputPath : string) (recordAsSudo : bool) (t : Target) :
  world s' = world s ->
  nextObject s' = nextObject s ->
  m_userTerminated (self s') = m_userTerminated (self s) ->
  targetUsable (world s) t = true ->
  folderUsable (world s) outputPath = true ->
  after (record perfOptions outputPath recordAsSudo t s')
  = after (record perfOptions outputPath recordAsSudo t s).
Proof.
  intros Hw Hn Hflag Ht Hf.
  assert (Ht' : targetUsable (world s') t = true) by (rewrite Hw; exact Ht).
  assert (Hf' : folderUsable (world s') outputPath = true) by (rewrite Hw; exact Hf).
  rewrite (record_good_target s perfOptions outputPath recordAsSudo t Ht).
  rewrite (record_good_target s' perfOptions outputPath recordAsSudo t Ht').
  rewrite (startRecording_good_folder s perfOptions outputPath recordAsSudo
             (targetCommand (world s) t) (targetDirectory t) Hf).
  rewrite (startRecording_good_folder s' perfOptions outputPath recordAsSudo
             (targetCommand (world s') t) (targetDirectory t) Hf').
  cbn [after fst snd]. rewrite Hw, Hn, Hflag. reflexivity.
Qed.

(** *** The exit lambda on partial and on missing data *)

(** X8. If the output file exists, is not empty and is readable, the exit
    lambda reports the recording as finished whatever the exit code, also
    after a crash, and runs no helper. *)
Theorem data_outweighs_exit_code (s : Sys) (exitCode : Z) (exitStatus : ExitStatus) :
  let file := fileInfo (world s) (m_outputPath (self s)) in
  exists_ file = true ->
  (0 < size file)%Z ->
  isReadable file = true ->
  onFinished exitCode exitStatus s
  = (tt,
     mkSys (world s) (set_userTerminated false (self s)) (nextObject s),
     [Emit (recordingFinished (m_outputPath (self s)))]).
Proof.
  intros file He Hsize Hr.
  assert (Hacc : exitAccepted s exitCode = true).
  { unfold exitAccepted. fold file. rewrite He.
    apply Z.ltb_lt in Hsize. rewrite Hsize, orb_true_r. reflexivity. }
  assert (Hfix : ensureFileReadable (m_outputPath (self s)) s = (true, s, [])).
  { rewrite ensureFileReadable_run. fold file. rewrite Hr. reflexivity. }
  unfold exitAccepted in Hacc.
  unfold onFinished, bind. cbn [getSelf getWorld].
  rewrite Hacc, Hfix. reflexivity.
Qed.

(** X9. If the output file does not exist, the exit lambda reports a
    failure with the exit code for every exit, also for exit code zero and
    for SIGTERM after a stop request, and runs no helper. *)
Theorem no_data_is_failure (s : Sys) (exitCode : Z) (exitStatus : ExitStatus) :
  exists_ (fileInfo (world s) (m_outputPath (self s))) = false ->
  onFinished exitCode exitStatus s
  = (tt,
     mkSys (world s) (set_userTerminated false (self s)) (nextObject s),
     [Emit (recordingFailed
              ("Failed to record perf data, error code "
               ++ number exitCode ++ "."))]).
Proof.
  intros He. unfold onFinished, bind. cbn [getSelf getWorld].
  rewrite He, andb_false_r. reflexivity.
Qed.

(** *** ensureFileReadable, twice *)

(** X10. The answer of [ensureFileReadable] is the readability of the file
    in the file system as the call leaves it; so after an answer of true a
    second call answers true and runs nothing. *)
Theorem ensureFileReadable_settles (s : Sys) (filePath : string) :
  let r := ensureFileReadable filePath s in
  value r = isReadable (fileInfo (world (after r)) filePath)
  /\ (value r = true ->
      ensureFileReadable filePath (after r) = (true, after r, [])).
Proof.
  intros r.
  assert (Hv : value r = isReadable (fileInfo (world (after r)) filePath)).
  { unfold r. rewrite ensureFileReadable_run.
    destruct (isReadable (fileInfo (world s) filePath)) eqn:Hr.
    - cbn. rewrite Hr. reflexivity.
    - destruct (isEmpty (sudoUtil (world s)) || isEmpty (currentUsername (world s))).
      + cbn. rewrite Hr. reflexivity.
      + reflexivity. }
  split; [ exact Hv | ].
  intros Htrue. rewrite Hv in Htrue.
  rewrite ensureFileReadable_run, Htrue. reflexivity.
Qed.

(** *** During and after a recording *)

Lemma occurAll_frame (xs : list Occurrence) :
  forall s : Sys,
    (exists e,
        m_perfRecordProcess (self (after (occurAll xs s)))
        = option_map (setErrorString e) (m_perfRecordProcess (self s)))
    /\ m_outputPath (self (after (occurAll xs s))) = m_outputPath (self s)
    /\ nextObject (after (occurAll xs s)) = nextObject s.
Proof.
  induction xs as [|x xs IH]; intros s.
  - split; [ | split; reflexivity ].
    cbn [occurAll ret after fst snd].
    destruct (m_perfRecordProcess (self s)) as [p|];
      [ exists (errorString p); cbn; rewrite setErrorString_same | exists "" ];
      reflexivity.
  - destruct (occurAll_cons x xs s) as [_ Ha]. rewrite Ha.
    destruct (occur_frame s x) as ((e1 & Hp1) & Hn1 & Ho1 & _).
    destruct (IH (after (occur x s))) as ((e2 & Hp2) & Ho2 & Hn2).
    rewrite Hp2, Hp1, Ho2, Ho1, Hn2, Hn1.
    split; [ | split; reflexivity ].
    exists e2. destruct (m_perfRecordProcess (self s)); reflexivity.
Qed.

Lemma terminal_is_no_output (n : Notification) :
  isTerminal n = true -> isOutput n = false.
Proof. destruct n; cbn; congruence. Qed.

(** X6. During a recording the output of the process is relayed complete
    and in order: whatever else happens in between (errors, stop requests,
    exits, changes of the file system), the output notifications are the
    decoded chunks of the ready-read signals, one for one. *)
Theorem output_relayed_in_order (xs : list Occurrence) :
  forall s : Sys,
    recording s ->
    filter isOutput (emitted (effects (occurAll xs s))) = flat_map outputOf xs.
Proof.
  induction xs as [|x xs IH]; intros s Hrec.
  - reflexivity.
  - destruct (occurAll_cons x xs s) as [He _]. rewrite He.
    destruct (occur_step s x Hrec) as (Hrec' & _ & Hem).
    rewrite emitted_app, filter_app, (IH _ Hrec'), Hem.
    cbn [flat_map]. f_equal.
    destruct x as [[c st | e d | bytes] | | w]; cbn [outputOf].
    + destruct (onFinished_one_terminal s c st) as (n & Hn & Hterm).
      rewrite Hn. cbn [filter]. rewrite (terminal_is_no_output n Hterm).
      reflexivity.
    + destruct (m_userTerminated (self s)); reflexivity.
    + reflexivity.
    + reflexivity.
    + reflexivity.
Qed.

(** X16. A stop request during a recording, then the exit of the process
    with SIGTERM: if the output file exists by then and is readable, the
    recording is reported as finished, whatever the size of the file, and
    the flag is down again afterwards. *)
Theorem user_stop_ends_in_success (s : Sys) (xs : list Occurrence)
    (st : ExitStatus) :
  recording s ->
  forallb (fun x => negb (isExit x)) xs = true ->
  let path := m_outputPath (self s) in
  let s1 := after ((stopRecording ;; occurAll xs) s) in
  exists_ (fileInfo (world s1) path) = true ->
  isReadable (fileInfo (world s1) path) = true ->
  emitted (effects (deliver (finished SIGTERM st) s1)) = [recordingFinished path]
  /\ m_userTerminated (self (after (deliver (finished SIGTERM st) s1))) = false.
Proof.
  intros Hrec Hxs path s1 Hex Hread.
  destruct (stopRecording_raises s Hrec) as (Hrec1 & Hflag1 & _).
  destruct (quiet_until_exit xs _ Hrec1 Hflag1 Hxs) as (Hrec2 & Hflag2 & _).
  assert (Hs1 : s1 = after (occurAll xs (after (stopRecording s)))).
  { unfold s1. exact (after_bind stopRecording (fun _ => occurAll xs) s). }
  rewrite <- Hs1 in Hrec2, Hflag2.
  assert (Hpath : m_outputPath (self s1) = path).
  { destruct (occur_frame s Stop) as (_ & _ & Ho1 & _).
    destruct (occurAll_frame xs (after (stopRecording s))) as (_ & Ho2 & _).
    rewrite Hs1, Ho2. exact Ho1. }
  destruct (occur_step s1 (Signal (finished SIGTERM st)) Hrec2) as (_ & Hdown & Hem).
  cbn [occur] in Hdown, Hem. split; [ | exact Hdown ].
  rewrite Hem.
  destruct (onFinished_run s1 SIGTERM st) as [Heff _]. rewrite Heff.
  unfold exitAccepted. rewrite Hflag2, Hpath, Hex.
  cbn [SIGTERM EXIT_SUCCESS Z.eqb Pos.eqb andb orb].
  rewrite ensureFileReadable_run, Hread. reflexivity.
Qed.

(** X7. A stop request that comes after the process has exited still
    raises the user-terminated flag, and nothing lowers it before the next
    recording: the next accepted start begins with the flag up, and the
    errors of its process are not reported. *)
Theorem late_stop_outlives_recording (s : Sys) (exitCode : Z)
    (exitStatus : ExitStatus) (perfOptions : list string) (outputPath : string)
    (recordAsSudo : bool) (recordOptions : list string) (wd : string) :
  recording s ->
  let s1 := after ((deliver (finished exitCode exitStatus) ;; stopRecording) s) in
  folderUsable (world s1) outputPath = true ->
  let s2 :=
    after (startRecording perfOptions outputPath recordAsSudo recordOptions wd s1) in
  m_userTerminated (self s1) = true
  /\ m_userTerminated (self s2) = true
  /\ (forall (e : ProcessError) (d : string),
        emitted (effects (deliver (errorOccurred e d) s2)) = []).
Proof.
  intros Hrec s1 Hf s2.
  destruct (occur_step s (Signal (finished exitCode exitStatus)) Hrec)
    as (Hrec1 & _ & _).
  cbn [occur] in Hrec1.
  destruct (stopRecording_raises _ Hrec1) as (_ & Hflag & _).
  assert (Hs1 : m_userTerminated (self s1) = true).
  { unfold s1. rewrite after_bind. exact Hflag. }
  destruct (startRecording_opens s1 perfOptions outputPath recordAsSudo
              recordOptions wd Hf) as (Hrec2 & Hkeep & _).
  fold s2 in Hrec2, Hkeep.
  assert (Hs2 : m_userTerminated (self s2) = true) by (rewrite Hkeep; exact Hs1).
  split; [ exact Hs1 | split; [ exact Hs2 | ] ].
  intros e d.
  destruct (occur_step s2 (Signal (errorOccurred e d)) Hrec2) as (_ & _ & H).
  cbn [occur] in H. rewrite H, Hs2. reflexivity.
Qed.

(** *** After a refused start *)

Lemma idle_step (s : Sys) (x : Occurrence) :
  idle s ->
  idle (after (occur x s))
  /\ emitted (effects (occur x s)) = []
  /\ m_userTerminated (self (after (occur x s)))
     = m_userTerminated (self s) || isStop x.
Proof.
  intros (p & Hp & Hf & He & Hr).
  destruct x as [[c st | e d | bytes] | | w]; cbn [occur isStop].
  - rewrite deliver_run, Hp, Hf. cbn. rewrite orb_false_r.
    split; [ exists p; auto | auto ].
  - rewrite deliver_run, Hp, He. cbn. rewrite orb_false_r.
    split; [ exists (setErrorString d p); auto | auto ].
  - rewrite deliver_run, Hp, Hr. cbn. rewrite orb_false_r.
    split; [ exists p; auto | auto ].
  - rewrite stopRecording_any, Hp. cbn. rewrite orb_true_r.
    split; [ exists p; cbn; auto | auto ].
  - cbn. rewrite orb_false_r. split; [ exists p; auto | auto ].
Qed.

(** X12. A supervisor that holds no process object, and so has never
    created one, is asked to record into an unusable folder.  The request
    kills and starts nothing, and the process object it leaves behind is
    the only one there is: it was never started and no lambda listens to
    it, so no signal of it notifies anything.  A stop request still raises
    the user-terminated flag, and nothing that happens lowers it again. *)
Theorem refused_start_leaves_deaf_object (s : Sys) (perfOptions : list string)
    (outputPath : string) (recordAsSudo : bool) (t : Target)
    (xs : list Occurrence) :
  m_perfRecordProcess (self s) = None ->
  targetUsable (world s) t = true ->
  folderUsable (world s) outputPath = false ->
  let r := record perfOptions outputPath recordAsSudo t s in
  let s1 := after r in
  (exists reason, effects r = [Emit (recordingFailed reason)])
  /\ emitted (effects (occurAll xs s1)) = []
  /\ m_userTerminated (self (after (occurAll xs s1)))
     = m_userTerminated (self s) || existsb isStop xs.
Proof.
  intros Hnone Ht Hf r s1.
  assert (Hrun : exists reason,
             r = (tt,
                  mkSys (world s)
                    (set_process
                       (Some (setProcessChannelMode MergedChannels
                                (newProcess (nextObject s))))
                       (self s))
                    (S (nextObject s)),
                  [Emit (recordingFailed reason)])).
  { unfold r.
    rewrite (record_good_target s perfOptions outputPath recordAsSudo t Ht).
    destruct (startRecording_bad_folder s perfOptions outputPath recordAsSudo
                (targetCommand (world s) t) (targetDirectory t) Hf)
      as (reason & _ & Hrun).
    exists reason. rewrite Hrun. unfold resetOf. rewrite Hnone. reflexivity. }
  destruct Hrun as (reason & Hrun).
  split; [ exists reason; rewrite Hrun; reflexivity | ].
  assert (Hidle : idle s1 /\ m_userTerminated (self s1) = m_userTerminated (self s)).
  { unfold s1. rewrite Hrun. split; [ | reflexivity ].
    eexists. split; [ reflexivity | ]. split; [ | split ]; reflexivity. }
  destruct Hidle as [Hidle Hflag]. rewrite <- Hflag.
  clearbody s1. clear Hflag Hrun. revert s1 Hidle.
  induction xs as [|x xs IH]; intros s1 Hidle.
  - cbn. rewrite orb_false_r. split; reflexivity.
  - destruct (occurAll_cons x xs s1) as [He Ha]. rewrite He, Ha.
    destruct (idle_step s1 x Hidle) as (Hidle' & Hem & Hfl).
    destruct (IH _ Hidle') as [IHe IHf].
    rewrite emitted_app, Hem, IHe, IHf, Hfl. cbn [existsb app].
    split; [ reflexivity | apply eq_sym, orb_assoc ].
Qed.

(** *** perfCommand and sendInput *)

(** X11. From an accepted start request for a program that is named on
    (perf itself, or with elevation a sudo helper that was found), through
    everything that happens to the recording, [perfCommand] answers the
    word [perf] followed by the arguments that the started notification
    carried, joined by blanks; with elevation these are the arguments of
    the sudo helper. *)
Theorem perfCommand_shows_started_arguments (s : Sys)
    (perfOptions : list string) (outputPath : string) (recordAsSudo : bool)
    (t : Target) (xs : list Occurrence) :
  targetUsable (world s) t = true ->
  folderUsable (world s) outputPath = true ->
  (recordAsSudo = true -> sudoUtil (world s) <> "") ->
  let r := record perfOptions outputPath recordAsSudo t s in
  exists prog args,
    prog <> ""
    /\ emitted (effects r) = [recordingStarted prog args]
    /\ value (perfCommand (after (occurAll xs (after r))))
       = ("perf " ++ join " " args)%string.
Proof.
  intros Ht Hf Hnamed r. unfold r.
  rewrite (record_good_target s perfOptions outputPath recordAsSudo t Ht).
  rewrite (startRecording_good_folder s perfOptions outputPath recordAsSudo
             (targetCommand (world s) t) (targetDirectory t) Hf).
  do 2 eexists. cbn [effects after fst snd].
  rewrite emitted_app, emitted_resetOf.
  split; [ | split; [ reflexivity | ] ].
  - destruct recordAsSudo; [ apply Hnamed; reflexivity | discriminate ].
  - rewrite perfCommand_value.
    match goal with
    | |- context [occurAll xs ?s0] =>
        destruct (occurAll_frame xs s0) as ((e & Hp) & _ & _); rewrite Hp
    end.
    reflexivity.
Qed.

(** X13. [sendInput] passes its assertion as soon as a start request with a
    usable target has been made, also one that was refused for its folder:
    the bytes then go to the process object the request created, and the
    supervisor is left as it was.  After a request with an unusable target
    on a supervisor without process object the assertion still fails. *)
Theorem sendInput_after_request (s : Sys) (input : string)
    (perfOptions : list string) (outputPath : string) (recordAsSudo : bool)
    (t : Target) :
  let s1 := after (record perfOptions outputPath recordAsSudo t s) in
  (targetUsable (world s) t = true ->
   sendInput input s1 = Some (s1, (nextObject s, input)))
  /\ (targetUsable (world s) t = false ->
      m_perfRecordProcess (self s) = None ->
      sendInput input s1 = None).
Proof.
  intros s1. unfold s1, sendInput.
  destruct (request_cases s perfOptions outputPath recordAsSudo t)
    as [(Ht & reason & Hr) | [(Ht & _ & reason & Hr) | (Ht & _ & prog & args & Hr)]];
    rewrite Hr, Ht; cbn [after fst snd self m_perfRecordProcess set_process];
    split; intros H; try discriminate H; try reflexivity.
  intros Hnone. rewrite Hnone. reflexivity.
Qed.

End Histories.

(** ** Further runs on the desktop *)

Import Scenes.

(** The day at the desk, as the outside sees it. *)
Example day_trace :
  effects (actAll day (boot (desktop (Some (userFile 0 dataPath)))))
  = [Emit (recordingFailed "Folder '/nonexistent' does not exist.");
     Kill 0; DeleteLater 0;
     Emit (recordingStarted "perf"
             ["record"; "-o"; "/tmp/perf.data"; "-g"; "/usr/bin/sleep"; "1"]);
     Start 1 "perf"
       ["record"; "-o"; "/tmp/perf.data"; "-g"; "/usr/bin/sleep"; "1"];
     Emit (recordingOutput "perf: started");
     Terminate 1;
     Emit (recordingFinished "/tmp/perf.data");
     Kill 1; DeleteLater 1;
     Emit (recordingStarted "/usr/bin/kdesu"
             ["-u"; "root"; "-t"; "--attach"; "4242"; "--"; "perf"; "record";
              "-o"; "/tmp/perf.data"; "--"; "runuser"; "-u"; "alice"; "--";
              "--pid"; "17,23"]);
     Start 2 "/usr/bin/kdesu"
       ["-u"; "root"; "-t"; "--attach"; "4242"; "--"; "perf"; "record";
        "-o"; "/tmp/perf.data"; "--"; "runuser"; "-u"; "alice"; "--";
        "--pid"; "17,23"];
     Emit (recordingFailed "Process crashed");
     Emit (recordingFailed "Failed to record perf data, error code 11.")].
Proof. reflexivity. Qed.

(** X1, at work. *)
Lemma plain_command_line_witness :
  emitted
    (effects (record ["-g"] dataPath false (Program "sleep" ["1"] "")
                (boot (desktop None))))
  = [recordingStarted "perf"
       ["record"; "-o"; "/tmp/perf.data"; "-g"; "/usr/bin/sleep"; "1"]]
  /\ spawned
       (effects (record ["-g"] dataPath false (Program "sleep" ["1"] "")
                   (boot (desktop None))))
     = [Start 0 "perf"
          ["record"; "-o"; "/tmp/perf.data"; "-g"; "/usr/bin/sleep"; "1"]].
Proof.
  apply (plain_command_line (P := platform) (boot (desktop None)) ["-g"]
           dataPath (Program "sleep" ["1"] "")); reflexivity.
Defined.

(** X2, at work: [kdesu] is installed on the desktop. *)
Lemma first_found_helper_witness :
  exists pre cmd post,
    ["kdesu"; "gksu"] = pre ++ cmd :: post
    /\ Forall (fun c => findExecutable (desktop None) c = "") pre
    /\ firstExecutable (desktop None) ["kdesu"; "gksu"]
       = findExecutable (desktop None) cmd.
Proof.
  apply (proj2 (first_found_helper (desktop None) ["kdesu"; "gksu"])).
  intros H. vm_compute in H. discriminate H.
Defined.

(** X6, at work. *)
Lemma output_relayed_in_order_witness :
  filter isOutput (emitted (effects (occurAll chatter (started None))))
  = [recordingOutput "one"; recordingOutput "two"; recordingOutput "three"].
Proof.
  apply (output_relayed_in_order (P := platform) chatter (started None)
           (started_recording None)).
Defined.

(** X7, at work: perf exits, the user presses stop, and records again. *)
Lemma late_stop_outlives_recording_witness :
  let s1 :=
    after ((deliver (finished 0 NormalExit) ;; stopRecording)
             (started (Some (userFile 0 dataPath)))) in
  let s2 :=
    after (startRecording [] dataPath false ["/usr/bin/sleep"; "1"] "" s1) in
  m_userTerminated (self s1) = true
  /\ m_userTerminated (self s2) = true
  /\ (forall (e : ProcessError) (d : string),
        emitted (effects (deliver (errorOccurred e d) s2)) = []).
Proof.
  apply (late_stop_outlives_recording (P := platform)
           (started (Some (userFile 0 dataPath))) 0%Z NormalExit
           [] dataPath false ["/usr/bin/sleep"; "1"] ""
           (started_recording (Some (userFile 0 dataPath)))).
  reflexivity.
Defined.

(** X8, at work: perf dies of a segmentation fault with data on disk. *)
Lemma data_outweighs_exit_code_witness :
  emitted (effects (onFinished 139 CrashExit (started partial)))
  = [recordingFinished "/tmp/perf.data"].
Proof.
  rewrite (data_outweighs_exit_code (P := platform) (started partial) 139%Z
             CrashExit eq_refl eq_refl eq_refl).
  reflexivity.
Defined.

(** X9, at work: perf exits with code zero and has written nothing. *)
Lemma no_data_is_failure_witness :
  emitted (effects (onFinished 0 NormalExit (started None)))
  = [recordingFailed "Failed to record perf data, error code 0."].
Proof.
  rewrite (no_data_is_failure (P := platform) (started None) 0%Z NormalExit
             eq_refl).
  reflexivity.
Defined.

(** X10, at work: once the helper has handed the file over, it is not run
    again. *)
Lemma ensureFileReadable_settles_witness :
  ensureFileReadable dataPath
    (after (ensureFileReadable dataPath (started (Some (rootFile 10 dataPath)))))
  = (true,
     after (ensureFileReadable dataPath (started (Some (rootFile 10 dataPath)))),
     []).
Proof.
  apply (proj2 (ensureFileReadable_settles (P := platform)
                  (started (Some (rootFile 10 dataPath))) dataPath)).
  reflexivity.
Defined.

(** X11, at work: an elevated recording of two processes. *)
Lemma perfCommand_shows_started_arguments_witness :
  exists prog args,
    prog <> ""
    /\ emitted
         (effects (record ["-g"] dataPath true (Processes ["17"; "23"])
                     (boot (desktop None))))
       = [recordingStarted prog args]
    /\ value
         (perfCommand
            (after (occurAll chatter
                      (after (record ["-g"] dataPath true
                                (Processes ["17"; "23"]) (boot (desktop None)))))))
       = ("perf " ++ join " " args)%string.
Proof.
  apply (perfCommand_shows_started_arguments (P := platform)
           (boot (desktop None)) ["-g"] dataPath true (Processes ["17"; "23"])
           chatter); [ reflexivity | reflexivity | ].
  intros _ H. vm_compute in H. discriminate H.
Defined.

(** X12, at work: a stop request and signals after the first request of a
    fresh supervisor was refused. *)
Lemma refused_start_leaves_deaf_object_witness :
  (exists reason,
      effects (record [] "/nonexistent/perf.data" false
                 (Program "sleep" ["1"] "") (boot (desktop None)))
      = [Emit (recordingFailed reason)])
  /\ emitted
       (effects
          (occurAll chatter
             (after (record [] "/nonexistent/perf.data" false
                       (Program "sleep" ["1"] "") (boot (desktop None))))))
     = []
  /\ m_userTerminated
       (self
          (after
             (occurAll chatter
                (after (record [] "/nonexistent/perf.data" false
                          (Program "sleep" ["1"] "") (boot (desktop None)))))))
     = true.
Proof.
  apply (refused_start_leaves_deaf_object (P := platform) (boot (desktop None))
           [] "/nonexistent/perf.data" false (Program "sleep" ["1"] "") chatter);
    reflexivity.
Defined.

(** X13, at work: input after a request refused for its folder, and after
    one refused for its target. *)
Lemma sendInput_after_request_witness :
  sendInput "q"
    (after (record [] "/nonexistent/perf.data" false (Program "sleep" ["1"] "")
              (boot (desktop None))))
  = Some (after (record [] "/nonexistent/perf.data" false
                   (Program "sleep" ["1"] "") (boot (desktop None))),
          (0, "q"))
  /\ sendInput "q"
       (after (record [] dataPath false (Program "nosuchtool" [] "")
                 (boot (desktop None))))
     = None.
Proof.
  split.
  - apply (sendInput_after_request (P := platform) (boot (desktop None)) "q" []
             "/nonexistent/perf.data" false (Program "sleep" ["1"] "")).
    reflexivity.
  - apply (sendInput_after_request (P := platform) (boot (desktop None)) "q" []
             dataPath false (Program "nosuchtool" [] "")); reflexivity.
Defined.

(** X14, at work: the same request after a recording and after a refused
    start. *)
Lemma accepted_start_forgets_witness :
  after (record ["-g"] dataPath true (Processes ["17"])
           (after (recordNowhere (boot (desktop None)))))
  = after (record ["-g"] dataPath true (Processes ["17"]) (started None)).
Proof.
  apply (accepted_start_forgets (P := platform) (started None)
           (after (recordNowhere (boot (desktop None))))
           ["-g"] dataPath true (Processes ["17"])); reflexivity.
Defined.

(** X16, at work: a stopped recording with an empty data file. *)
Lemma user_stop_ends_in_success_witness :
  emitted
    (effects
       (deliver (finished SIGTERM NormalExit)
          (after ((stopRecording ;; occurAll stopped)
                    (started (Some (userFile 0 dataPath)))))))
  = [recordingFinished "/tmp/perf.data"].
Proof.
  apply (user_stop_ends_in_success (P := platform)
           (started (Some (userFile 0 dataPath))) stopped NormalExit
           (started_recording (Some (userFile 0 dataPath)))); reflexivity.
Defined.
